(** * Dayflow HRMS: the authorization core

    A shallow embedding of [lib/rbac] (authenticateRequest, hasPermission,
    requirePermission, requireRole), of the route guard [middleware.ts] and of
    the GET and POST handlers of [app/api/attendance/route.ts].

    Handlers run in a small state-and-exception monad over the database and a
    log of the calls made to the outside world (cookie store, token codec,
    database).  The collaborators defined elsewhere ([getAuthCookie] and
    [verifyToken] of [lib/auth], the ORM, [Date]) are fields of [Env]. *)

From Stdlib Require Import String Ascii List ZArith Bool Lia DecimalString.
Import ListNotations.
Open Scope string_scope.

(** ** JavaScript values *)

Module Js.

Inductive Exn : Type :=
| TypeError (msg : string)
| ExternalFault (msg : string).

(** A computation that either throws or returns. *)
Definition Exc (A : Type) : Type := (Exn + A)%type.

#[local] Unset Elimination Schemes.
Inductive JsVal : Type :=
| JUndefined
| JNull
| JBool (b : bool)
| JNum (z : Z)
| JStr (s : string)
| JArr (items : list JsVal)
| JObj (fields : list (string * JsVal)).
#[local] Set Elimination Schemes.

(** [!!s] for a string. *)
Definition truthyStr (s : string) : bool := negb (s =? "").

(** [!!x] for [x : string | null | undefined]. *)
Definition truthyOpt (o : option string) : bool :=
  match o with
  | Some s => truthyStr s
  | None => false
  end.

(** [!!n] for an integral number. *)
Definition truthyNum (z : Z) : bool := negb (z =? 0)%Z.

Definition truthy (v : JsVal) : bool :=
  match v with
  | JUndefined | JNull => false
  | JBool b => b
  | JNum z => truthyNum z
  | JStr s => truthyStr s
  | JArr _ | JObj _ => true
  end.

(** [s.startsWith(p)] *)
Definition startsWith (s p : string) : bool := String.prefix p s.

(** [l.includes(x)] on an array of strings. *)
Definition includes (l : list string) (x : string) : bool :=
  existsb (String.eqb x) l.

(** [n.toString()] for an integral number. *)
Definition toString (z : Z) : string := NilZero.string_of_int (Z.to_int z).

Fixpoint repeatStr (n : nat) (c : string) : string :=
  match n with
  | O => ""
  | S k => c ++ repeatStr k c
  end.

(** [s.padStart(n, c)] with a one-character pad [c]. *)
Definition padStart (s : string) (n : nat) (c : string) : string :=
  repeatStr (n - String.length s) c ++ s.

(** Names every object literal inherits from [Object.prototype]. *)
Definition objectPrototypeKeys : list string :=
  [ "constructor"; "__defineGetter__"; "__defineSetter__"; "hasOwnProperty";
    "__lookupGetter__"; "__lookupSetter__"; "isPrototypeOf";
    "propertyIsEnumerable"; "toString"; "valueOf"; "__proto__";
    "toLocaleString" ].

(** The result of [obj[key]] on an object literal: an own property, a member
    inherited from [Object.prototype] (a function, or the prototype itself:
    truthy, and not an array), or [undefined]. *)
Inductive Property (A : Type) : Type :=
| Own (v : A)
| Inherited
| Undefined.
Arguments Own {A} v.
Arguments Inherited {A}.
Arguments Undefined {A}.

Definition ownProperty {A} (obj : list (string * A)) (key : string) : option A :=
  option_map snd (find (fun kv => fst kv =? key) obj).

Definition getProperty {A} (obj : list (string * A)) (key : string) : Property A :=
  match ownProperty obj key with
  | Some v => Own v
  | None => if includes objectPrototypeKeys key then Inherited else Undefined
  end.

(** [Object.keys(obj)] in declaration order. *)
Definition keys {A} (obj : list (string * A)) : list string := map fst obj.

(** [v.name] for a parsed JSON value that is neither [null] nor
    [undefined] (only object literals carry the fields read here). *)
Definition field (v : JsVal) (name : string) : JsVal :=
  match v with
  | JObj fields =>
      match ownProperty fields name with
      | Some x => x
      | None => JUndefined
      end
  | _ => JUndefined
  end.

End Js.
Import Js.

(** ** Tables and the outside world *)

Record AuthenticatedUser : Type := mkUser {
  id : string;
  email : string;
  role : string;
  firstName : string;
  lastName : string
}.

Record Permission : Type := mkPermission {
  resource : string;
  action : string
}.

(** A row of the [users] table (the columns the excerpt reads). *)
Record UserRow : Type := mkUserRow {
  users_id : string;
  users_email : string;
  users_role : string;
  users_first_name : string;
  users_last_name : string;
  users_employee_id : option string
}.

(** A row of the [attendance] table; timestamps are epoch milliseconds. *)
Record AttendanceRow : Type := mkAttendanceRow {
  attendance_id : string;
  attendance_user_id : string;
  attendance_date : string;
  attendance_check_in : option Z;
  attendance_check_out : option Z;
  attendance_status : string;
  attendance_notes : option string;
  attendance_created_at : option Z;
  attendance_updated_at : option Z
}.

Record Database : Type := mkDatabase {
  users : list UserRow;
  attendance : list AttendanceRow
}.

(** The verified payload of a session token. *)
Record TokenPayload : Type := mkPayload {
  userId : string;
  payload_role : string
}.

(** [new Date(v)]: a valid instant or [Invalid Date]. *)
Inductive JsDate : Type :=
| ValidDate (ms : Z)
| InvalidDate.

(** The [values] object handed to [db.insert(attendance)]. *)
Record NewAttendance : Type := mkNewAttendance {
  new_user_id : string;
  new_date : JsVal;
  new_check_in : option JsDate;
  new_check_out : option JsDate;
  new_status : string;
  new_notes : JsVal
}.

Inductive DbOp : Type := SelectUser | SelectAttendance | InsertAttendance.

(** Calls made to the outside world, in the order they happen. *)
Inductive Event : Type :=
| ReadCookie
| VerifyToken (token : string)
| Query (op : DbOp).

(** The collaborators of the authorization core: the cookie store and token
    codec of [lib/auth], the process environment, and the behaviour of the
    database driver. *)
Record Env : Type := mkEnv {
  (** [getAuthCookie()] for the current request *)
  env_getAuthCookie : Exc (option string);
  (** [verifyToken(token)] at the time of the request *)
  env_verifyToken : string -> Exc (option TokenPayload);
  (** [process.env.NODE_ENV] *)
  NODE_ENV : string;
  (** whether a statement of this kind fails (store unreachable, ...) *)
  env_dbFault : DbOp -> bool;
  (** the order of the [date] column: [dateLeb a b] when [a <= b] *)
  env_dateLeb : string -> string -> bool;
  (** [Date.prototype.toISOString] on a valid instant *)
  env_toISOString : Z -> string;
  (** [new Date(v)] *)
  env_newDate : JsVal -> JsDate;
  (** [insert(attendance).values(v).returning()]: the new table and row *)
  env_insertAttendance : Database -> NewAttendance -> Exc (Database * JsVal)
}.

(** ** The handler monad: database, call log, exceptions *)

Record Sys : Type := mkSys {
  db : Database;
  log : list Event
}.

Definition M (A : Type) : Type := Sys -> Sys * Exc A.

Definition ret {A} (a : A) : M A := fun s => (s, inr a).

Definition throw {A} (e : Exn) : M A := fun s => (s, inl e).

Definition bind {A B} (m : M A) (k : A -> M B) : M B :=
  fun s =>
    match m s with
    | (s', inr a) => k a s'
    | (s', inl e) => (s', inl e)
    end.

(** [try { body } catch (e) { handler(e) }] *)
Definition tryCatch {A} (body : M A) (handler : Exn -> M A) : M A :=
  fun s =>
    match body s with
    | (s', inl e) => handler e s'
    | r => r
    end.

Definition emit (e : Event) : M unit :=
  fun s => (mkSys (db s) (log s ++ [e]), inr tt).

Definition liftExc {A} (x : Exc A) : M A := fun s => (s, x).

Definition getDb : M Database := fun s => (s, inr (db s)).

Definition putDb (d : Database) : M unit := fun s => (mkSys d (log s), inr tt).

Declare Scope handler_scope.
Delimit Scope handler_scope with handler.
Notation "x <- m ;; k" := (bind m (fun x => k))
  (at level 61, m at next level, right associativity) : handler_scope.
Notation "m ;;; k" := (bind m (fun _ => k))
  (at level 61, right associativity) : handler_scope.
Open Scope handler_scope.

(** ** Requests and responses *)

Record NextRequest : Type := mkRequest {
  (** scheme, host and port of [request.url] *)
  req_origin : string;
  (** [request.nextUrl.pathname] *)
  req_pathname : string;
  (** the query string of [request.url], in order *)
  req_searchParams : list (string * string);
  (** [await request.json()] *)
  req_json : Exc JsVal
}.

Record URL : Type := mkURL {
  url_origin : string;
  url_pathname : string;
  url_searchParams : list (string * string)
}.

(** [new URL(path, request.url)] for an absolute [path]. *)
Definition newURL (path : string) (request : NextRequest) : URL :=
  mkURL (req_origin request) path [].

(** [url.searchParams.set(name, value)] on a URL without that parameter. *)
Definition searchParams_set (u : URL) (name value : string) : URL :=
  mkURL (url_origin u) (url_pathname u) (url_searchParams u ++ [(name, value)]).

(** [searchParams.get(name)]: the first value, or [null]. *)
Definition searchParams_get (request : NextRequest) (name : string) : option string :=
  ownProperty (req_searchParams request) name.

Fixpoint queryString (ps : list (string * string)) : string :=
  match ps with
  | [] => ""
  | [(k, v)] => k ++ "=" ++ v
  | (k, v) :: rest => k ++ "=" ++ v ++ "&" ++ queryString rest
  end.

(** Path and query of a URL, as they appear in a [Location] header. *)
Definition pathAndQuery (u : URL) : string :=
  match url_searchParams u with
  | [] => url_pathname u
  | ps => url_pathname u ++ "?" ++ queryString ps
  end.

Record SetCookie : Type := mkSetCookie {
  cookie_name : string;
  cookie_value : string;
  cookie_httpOnly : bool;
  cookie_secure : bool;
  cookie_sameSite : string;
  cookie_maxAge : Z;
  cookie_path : string
}.

(** The nested [user] object of a selected attendance record. *)
Record RecordUser : Type := mkRecordUser {
  ru_id : string;
  ru_firstName : string;
  ru_lastName : string;
  ru_email : string;
  ru_employeeId : option string
}.

(** [AttendanceQueryRecord]: what the attendance query selects. *)
Record AttendanceQueryRecord : Type := mkQueryRecord {
  qr_id : string;
  qr_date : string;
  qr_checkIn : option Z;
  qr_checkOut : option Z;
  qr_status : string;
  qr_notes : option string;
  qr_createdAt : option Z;
  qr_updatedAt : option Z;
  qr_user : option RecordUser
}.

(** An element of the array the GET handler answers with. *)
Record AttendanceRecord : Type := mkAttendanceRecord {
  ar_id : string;
  ar_date : string;
  ar_checkIn : string;
  ar_checkOut : string;
  ar_workHours : string;
  ar_extraHours : string;
  ar_status : string;
  ar_createdAt : option string;
  ar_updatedAt : option string;
  ar_user : option RecordUser
}.

Inductive ResponseBody : Type :=
| ErrorBody (error : option string)
| RecordsBody (records : list AttendanceRecord)
| ValueBody (v : JsVal).

Inductive NextResponse : Type :=
| Next
| Redirect (url : URL) (cookies : list SetCookie)
| Json (body : ResponseBody) (status : Z).

(** [x || d] for an optional number. *)
Definition orNum (x : option Z) (d : Z) : Z :=
  match x with
  | Some z => if truthyNum z then z else d
  | None => d
  end.

(** ** lib/rbac *)

Module Rbac.

Definition P (r a : string) : Permission := mkPermission r a.

(** Role-based permissions mapping *)
Definition ROLE_PERMISSIONS : list (string * list Permission) :=
  [ ("admin",
      [ P "attendance" "view_all"; P "attendance" "approve";
        P "attendance" "edit"; P "attendance" "export";
        P "leave" "view_all"; P "leave" "approve"; P "leave" "reject";
        P "leave" "export";
        P "payroll" "view_all"; P "payroll" "edit"; P "payroll" "export";
        P "employees" "view_all"; P "employees" "create";
        P "employees" "edit"; P "employees" "delete";
        P "documents" "view_all"; P "documents" "upload";
        P "documents" "delete" ]);
    ("hr",
      [ P "attendance" "view_all"; P "attendance" "approve";
        P "attendance" "export";
        P "leave" "view_all"; P "leave" "approve"; P "leave" "reject";
        P "leave" "export";
        P "payroll" "view_all"; P "payroll" "export";
        P "employees" "view_all"; P "employees" "edit";
        P "documents" "view_all"; P "documents" "upload" ]);
    ("employee",
      [ P "attendance" "view_own"; P "attendance" "check_in";
        P "attendance" "check_out";
        P "leave" "apply"; P "leave" "view_own";
        P "payroll" "view_own";
        P "documents" "view_own"; P "documents" "upload" ]) ].

(** The permission set the table declares for a role (empty when the table
    has no entry for it). *)
Definition declared (r : string) : list Permission :=
  match ownProperty ROLE_PERMISSIONS r with
  | Some ps => ps
  | None => []
  end.

Definition matches (resource0 action0 : string) (p : Permission) : bool :=
  (resource p =? resource0) && (action p =? action0).

(** [ROLE_PERMISSIONS[user.role] || []] followed by [permissions.some(...)].
    A role naming a member of [Object.prototype] yields that member, which is
    truthy and has no [some] method: the call throws. *)
Definition hasPermission (user : AuthenticatedUser) (resource0 action0 : string)
  : Exc bool :=
  match getProperty ROLE_PERMISSIONS (role user) with
  | Own permissions => inr (existsb (matches resource0 action0) permissions)
  | Undefined => inr (existsb (matches resource0 action0) [])
  | Inherited => inl (TypeError "permissions.some is not a function")
  end.

(** The object a checker returns: [{}] or [{ error, status }]. *)
Record CheckResult : Type := mkCheck {
  check_error : option string;
  check_status : option Z
}.

Definition emptyObject : CheckResult := mkCheck None None.

Definition insufficient : CheckResult :=
  mkCheck (Some "Insufficient permissions") (Some 403%Z).

Definition requirePermission (resource0 action0 : string)
  : AuthenticatedUser -> Exc CheckResult :=
  fun user =>
    match hasPermission user resource0 action0 with
    | inl e => inl e
    | inr allowed => if negb allowed then inr insufficient else inr emptyObject
    end.

Definition requireRole (allowedRoles : list string)
  : AuthenticatedUser -> CheckResult :=
  fun user =>
    if negb (includes allowedRoles (role user)) then insufficient
    else emptyObject.

Definition requireHR := requireRole ["hr"; "admin"].
Definition requireAdmin := requireRole ["admin"].
Definition requireEmployee := requireRole ["employee"; "hr"; "admin"].

(** Permission helpers for common operations *)
Definition canViewAllAttendance user := hasPermission user "attendance" "view_all".
Definition canApproveAttendance user := hasPermission user "attendance" "approve".
Definition canViewOwnAttendance user := hasPermission user "attendance" "view_own".
Definition canViewAllLeave user := hasPermission user "leave" "view_all".
Definition canApproveLeave user := hasPermission user "leave" "approve".
Definition canViewAllPayroll user := hasPermission user "payroll" "view_all".
Definition canViewAllEmployees user := hasPermission user "employees" "view_all".

(** What [authenticateRequest] resolves to: [{ user }] or [{ error, status }]. *)
Record AuthResult : Type := mkAuth {
  auth_user : option AuthenticatedUser;
  auth_error : option string;
  auth_status : option Z
}.

Definition authError (msg : string) (code : Z) : AuthResult :=
  mkAuth None (Some msg) (Some code).

Definition authUser (u : AuthenticatedUser) : AuthResult :=
  mkAuth (Some u) None None.

(** The columns [authenticateRequest] selects from a [users] row. *)
Definition selectUser (r : UserRow) : AuthenticatedUser :=
  mkUser (users_id r) (users_email r) (users_role r)
         (users_first_name r) (users_last_name r).

(** A token the guard [if (!token)] lets through. *)
Definition present (token : option string) : option string :=
  match token with
  | Some t => if truthyStr t then Some t else None
  | None => None
  end.

Section WithEnv.
Variable env : Env.

Definition getAuthCookie : M (option string) :=
  emit ReadCookie ;;; liftExc (env_getAuthCookie env).

Definition verifyToken (token : string) : M (option TokenPayload) :=
  emit (VerifyToken token) ;;; liftExc (env_verifyToken env token).

(** A read-only statement: fails as a whole or answers from the tables. *)
Definition runSelect {A} (op : DbOp) (q : Database -> A) : M A :=
  emit (Query op) ;;;
  if env_dbFault env op then throw (ExternalFault "database")
  else d <- getDb ;; ret (q d).

(** [select(...).from(users).where(eq(users.id, uid)).limit(1)] *)
Definition selectUserById (uid : string) (d : Database) : list AuthenticatedUser :=
  firstn 1 (map selectUser (filter (fun r => users_id r =? uid) (users d))).

Definition authenticateRequest (request : NextRequest) : M AuthResult :=
  tryCatch
    (token <- getAuthCookie ;;
     match present token with
     | None => ret (authError "No authentication token found" 401)
     | Some token =>
         payload <- verifyToken token ;;
         match payload with
         | None => ret (authError "Invalid token" 401)
         | Some payload =>
             rows <- runSelect SelectUser (selectUserById (userId payload)) ;;
             match rows with
             | [] => ret (authError "User not found" 404)
             | user :: _ => ret (authUser user)
             end
         end
     end)
    (fun _ => ret (authError "Authentication failed" 500)).

End WithEnv.

End Rbac.

(** ** middleware.ts: the route guard *)

Module Middleware.
Import Rbac.

(** Public routes that don't require authentication *)
Definition publicRoutes : list string :=
  [ "/auth/login"; "/auth/register"; "/api/auth/login"; "/api/auth/register";
    "/api/auth/logout" ].

(** Role-based route protection, in declaration order *)
Definition roleBasedRoutes : list (string * list string) :=
  [ ("/employees", ["hr"; "admin"]);
    ("/reports", ["hr"; "admin"]);
    ("/settings", ["admin"]);
    ("/api/employees", ["hr"; "admin"]);
    ("/api/reports", ["hr"; "admin"]);
    ("/api/users", ["hr"; "admin"]) ].

(** [publicRoutes.some(route => pathname.startsWith(route))] *)
Definition isPublic (pathname : string) : bool :=
  existsb (fun route => startsWith pathname route) publicRoutes.

(** The paths the guard redirects when no token is found. *)
Definition redirectsWithoutToken (pathname : string) : bool :=
  startsWith pathname "/app/" || startsWith pathname "/api/" ||
  (pathname =? "/") || startsWith pathname "/dashboard" ||
  startsWith pathname "/attendance" || startsWith pathname "/documents" ||
  startsWith pathname "/leave" || startsWith pathname "/payroll".

Definition loginUrl (request : NextRequest) : URL :=
  newURL "/auth/login" request.

Definition dashboardUrl (request : NextRequest) : URL :=
  searchParams_set (newURL "/dashboard" request) "error" "insufficient_permissions".

(** The cookie that clears the invalid token. *)
Definition clearedCookie (env : Env) : SetCookie :=
  {| cookie_name := "auth-token";
     cookie_value := "";
     cookie_httpOnly := true;
     cookie_secure := (NODE_ENV env =? "production");
     cookie_sameSite := "lax";
     cookie_maxAge := 0;
     cookie_path := "/" |}.

(** [Object.keys(roleBasedRoutes).find(route => pathname.startsWith(route))] *)
Definition protectedRoute (pathname : string) : option string :=
  find (fun route => startsWith pathname route) (keys roleBasedRoutes).

Section WithEnv.
Variable env : Env.

Definition middleware (request : NextRequest) : M NextResponse :=
  let pathname := req_pathname request in
  if isPublic pathname then ret Next
  else
    token <- getAuthCookie env ;;
    match present token with
    | None =>
        if redirectsWithoutToken pathname
        then ret (Redirect (loginUrl request) [])
        else ret Next
    | Some token =>
        payload <- verifyToken env token ;;
        match payload with
        | None => ret (Redirect (loginUrl request) [clearedCookie env])
        | Some payload =>
            match present (protectedRoute pathname) with
            | None => ret Next
            | Some route =>
                match getProperty roleBasedRoutes route with
                | Undefined => ret Next
                | Inherited => throw (TypeError "requiredRoles.includes is not a function")
                | Own requiredRoles =>
                    if negb (includes requiredRoles (payload_role payload))
                    then ret (Redirect (dashboardUrl request) [])
                    else ret Next
                end
            end
        end
    end.

End WithEnv.

End Middleware.

(** ** app/api/attendance/route.ts *)

Module Attendance.
Import Rbac.

(** The conditions pushed onto the [where] clause. *)
Inductive Condition : Type :=
| UserIdEq (uid : string)
| DateGte (from : string)
| DateLte (to : string).

(** A row of [attendance LEFT JOIN users]. *)
Definition Joined : Type := (AttendanceRow * option UserRow)%type.

(** [attendance LEFT JOIN users ON attendance.user_id = users.id] *)
Definition leftJoin (d : Database) : list Joined :=
  flat_map
    (fun a =>
       match filter (fun u => users_id u =? attendance_user_id a) (users d) with
       | [] => [(a, None)]
       | us => map (fun u => (a, Some u)) us
       end)
    (attendance d).

(** The selected columns. *)
Definition project (j : Joined) : AttendanceQueryRecord :=
  let a := fst j in
  {| qr_id := attendance_id a;
     qr_date := attendance_date a;
     qr_checkIn := attendance_check_in a;
     qr_checkOut := attendance_check_out a;
     qr_status := attendance_status a;
     qr_notes := attendance_notes a;
     qr_createdAt := attendance_created_at a;
     qr_updatedAt := attendance_updated_at a;
     qr_user :=
       option_map
         (fun u => mkRecordUser (users_id u) (users_first_name u)
                     (users_last_name u) (users_email u) (users_employee_id u))
         (snd j) |}.

Section WithEnv.
Variable env : Env.

Definition holds (c : Condition) (a : AttendanceRow) : bool :=
  match c with
  | UserIdEq uid => attendance_user_id a =? uid
  | DateGte from => env_dateLeb env from (attendance_date a)
  | DateLte to => env_dateLeb env (attendance_date a) to
  end.

(** [conditions.length > 0 ? queryBuilder.where(and(...conditions)) : queryBuilder] *)
Definition applyWhere (conditions : list Condition) (rows : list Joined) : list Joined :=
  match conditions with
  | [] => rows
  | _ => filter (fun j => forallb (fun c => holds c (fst j)) conditions) rows
  end.

Fixpoint insertDesc (x : Joined) (l : list Joined) : list Joined :=
  match l with
  | [] => [x]
  | y :: rest =>
      if env_dateLeb env (attendance_date (fst y)) (attendance_date (fst x))
      then x :: l
      else y :: insertDesc x rest
  end.

(** [orderBy(desc(attendance.date))]; rows of one date keep the table order. *)
Definition orderByDateDesc (rows : list Joined) : list Joined :=
  fold_right insertDesc [] rows.

(** The rows the attendance query selects, before projection. *)
Definition selectedRows (conditions : list Condition) (d : Database) : list Joined :=
  orderByDateDesc (applyWhere conditions (leftJoin d)).

Definition selectAttendance (conditions : list Condition) (d : Database)
  : list AttendanceQueryRecord :=
  map project (selectedRows conditions d).

Definition twoDigits (z : Z) : string := padStart (toString z) 2 "0".

(** The body of [records.map(...)]. *)
Definition toAttendanceRecord (record : AttendanceQueryRecord) : AttendanceRecord :=
  let checkInIso :=
    match qr_checkIn record with
    | Some t => env_toISOString env t
    | None => ""
    end in
  let checkOutIso :=
    match qr_checkOut record with
    | Some t => env_toISOString env t
    | None => ""
    end in
  let hours :=
    match qr_checkIn record, qr_checkOut record with
    | Some checkIn, Some checkOut =>
        let diffMs := (checkOut - checkIn)%Z in
        let diffHours := (diffMs / (1000 * 60 * 60))%Z in
        let diffMinutes := (Z.rem diffMs (1000 * 60 * 60) / (1000 * 60))%Z in
        let workHours := twoDigits diffHours ++ ":" ++ twoDigits diffMinutes in
        let standardHours := 8%Z in
        if (standardHours <? diffHours)%Z
        then (workHours,
              twoDigits (diffHours - standardHours) ++ ":" ++ twoDigits diffMinutes)
        else (workHours, "00:00")
    | _, _ => ("00:00", "00:00")
    end in
  let iso (t : option Z) : option string :=
    match t with
    | Some t => let s := env_toISOString env t in
                if truthyStr s then Some s else None
    | None => None
    end in
  {| ar_id := qr_id record;
     ar_date := qr_date record;
     ar_checkIn := checkInIso;
     ar_checkOut := checkOutIso;
     ar_workHours := fst hours;
     ar_extraHours := snd hours;
     ar_status := qr_status record;
     ar_createdAt := iso (qr_createdAt record);
     ar_updatedAt := iso (qr_updatedAt record);
     ar_user := qr_user record |}.

(** [if (auth.error || !auth.user)]: the user to go on with, if any. *)
Definition authenticated (auth : AuthResult) : option AuthenticatedUser :=
  if truthyOpt (auth_error auth) then None else auth_user auth.

Definition unauthenticated (auth : AuthResult) : NextResponse :=
  Json (ErrorBody (auth_error auth)) (orNum (auth_status auth) 401).

Definition forbidden : NextResponse :=
  Json (ErrorBody (Some "Insufficient permissions")) 403.

Definition internalError : NextResponse :=
  Json (ErrorBody (Some "Internal server error")) 500.

(** The [where] conditions of the GET handler. *)
Definition conditionsFor (effectiveUserId from to : option string) : list Condition :=
  match present effectiveUserId with
  | Some uid => [UserIdEq uid]
  | None => []
  end ++
  match present from, present to with
  | Some f, Some t => [DateGte f; DateLte t]
  | _, _ => []
  end.

(** The GET handler from the building of the conditions on. *)
Definition listAttendance (effectiveUserId from to : option string) : M NextResponse :=
  records <- runSelect env SelectAttendance
               (selectAttendance (conditionsFor effectiveUserId from to)) ;;
  ret (Json (RecordsBody (map toAttendanceRecord records)) 200).

Definition GET (request : NextRequest) : M NextResponse :=
  tryCatch
    (auth <- authenticateRequest env request ;;
     match authenticated auth with
     | None => ret (unauthenticated auth)
     | Some user =>
         let from := searchParams_get request "from" in
         let to := searchParams_get request "to" in
         let userId := searchParams_get request "userId" in
         viewAll <- liftExc (canViewAllAttendance user) ;;
         if viewAll then listAttendance userId from to
         else
           viewOwn <- liftExc (canViewOwnAttendance user) ;;
           if viewOwn then
             match present userId with
             | Some other =>
                 if negb (other =? id user) then ret forbidden
                 else listAttendance (Some (id user)) from to
             | None => listAttendance (Some (id user)) from to
             end
           else ret forbidden
     end)
    (fun _ => ret internalError).

(** [insert(attendance).values(v).returning()] *)
Definition insertAttendance (v : NewAttendance) : M JsVal :=
  emit (Query InsertAttendance) ;;;
  d <- getDb ;;
  r <- liftExc (env_insertAttendance env d v) ;;
  putDb (fst r) ;;;
  ret (snd r).

(** [x ? new Date(x) : null] *)
Definition dateOrNull (x : JsVal) : option JsDate :=
  if truthy x then Some (env_newDate env x) else None.

Definition POST (request : NextRequest) : M NextResponse :=
  tryCatch
    (auth <- authenticateRequest env request ;;
     match authenticated auth with
     | None => ret (unauthenticated auth)
     | Some user =>
         permissionCheck <- liftExc (requirePermission "attendance" "check_in" user) ;;
         if truthyOpt (check_error permissionCheck)
         then ret (Json (ErrorBody (check_error permissionCheck))
                        (orNum (check_status permissionCheck) 403))
         else
           body <- liftExc (req_json request) ;;
           match body with
           | JUndefined | JNull =>
               throw (TypeError "Cannot destructure property 'date'")
           | _ =>
               let date := field body "date" in
               let checkIn := field body "checkIn" in
               let checkOut := field body "checkOut" in
               let notes := field body "notes" in
               if negb (truthy date)
               then ret (Json (ErrorBody (Some "Date is required")) 400)
               else
                 newRecord <- insertAttendance
                   {| new_user_id := id user;
                      new_date := date;
                      new_check_in := dateOrNull checkIn;
                      new_check_out := dateOrNull checkOut;
                      new_status := "present";
                      new_notes := if truthy notes then notes else JNull |} ;;
                 ret (Json (ValueBody newRecord) 201)
           end
     end)
    (fun _ => ret internalError).

End WithEnv.

End Attendance.

(** ** app/api/attendance/route.ts: PUT *)

Module AttendanceUpdate.
Import Rbac Attendance.

(** [updateData], the object handed to [update(attendance).set(...)]. *)
Record UpdateData : Type := mkUpdateData {
  set_status : JsVal;
  set_notes : JsVal;
  set_updated_at : Z
}.

(** What PUT needs from the outside beyond [Env]: the clock, and the
    statement [update(attendance).set(data).where(eq(attendance.id, id))
    .returning()], which answers with the new tables and the updated rows. *)
Record UpdateDriver : Type := mkUpdateDriver {
  drv_now : Z;
  drv_update : Database -> JsVal -> UpdateData -> Exc (Database * list JsVal)
}.

Section WithEnv.
Variable env : Env.
Variable driver : UpdateDriver.

Definition updateAttendance (id0 : JsVal) (data : UpdateData) : M (list JsVal) :=
  d <- getDb ;;
  r <- liftExc (drv_update driver d id0 data) ;;
  putDb (fst r) ;;;
  ret (snd r).

Definition PUT (request : NextRequest) : M NextResponse :=
  tryCatch
    (auth <- authenticateRequest env request ;;
     match authenticated auth with
     | None => ret (unauthenticated auth)
     | Some user =>
         permissionCheck <- liftExc (requirePermission "attendance" "edit" user) ;;
         if truthyOpt (check_error permissionCheck)
         then ret (Json (ErrorBody (check_error permissionCheck))
                        (orNum (check_status permissionCheck) 403))
         else
           body <- liftExc (req_json request) ;;
           match body with
           | JUndefined | JNull =>
               throw (TypeError "Cannot destructure property 'id'")
           | _ =>
               let id0 := field body "id" in
               let status := field body "status" in
               let notes := field body "notes" in
               if negb (truthy id0)
               then ret (Json (ErrorBody (Some "ID is required")) 400)
               else
                 let updateData :=
                   {| set_status := if truthy status then status else JStr "present";
                      set_notes := if truthy notes then notes else JNull;
                      set_updated_at := drv_now driver |} in
                 rows <- updateAttendance id0 updateData ;;
                 let updatedRecord :=
                   match rows with
                   | [] => JUndefined
                   | r :: _ => r
                   end in
                 if negb (truthy updatedRecord)
                 then ret (Json (ErrorBody (Some "Attendance record not found")) 404)
                 else ret (Json (ValueBody updatedRecord) 200)
           end
     end)
    (fun _ => ret internalError).

End WithEnv.

End AttendanceUpdate.

(** ** RoleBasedNav: the navigation filter *)

Module Nav.

Record NavItem : Type := mkNavItem {
  nav_name : string;
  href : string;
  requiredRoles : option (list string)
}.

Definition navigationItems : list NavItem :=
  [ mkNavItem "Dashboard" "/dashboard" (Some ["employee"; "hr"; "admin"]);
    mkNavItem "Attendance" "/attendance" (Some ["employee"; "hr"; "admin"]);
    mkNavItem "Employees" "/employees" (Some ["hr"; "admin"]);
    mkNavItem "Documents" "/documents" (Some ["employee"; "hr"; "admin"]);
    mkNavItem "Leave" "/leave" (Some ["employee"; "hr"; "admin"]);
    mkNavItem "Payroll" "/payroll" (Some ["employee"; "hr"; "admin"]);
    mkNavItem "Reports" "/reports" (Some ["hr"; "admin"]);
    mkNavItem "Settings" "/settings" (Some ["admin"]) ].

(** [!item.requiredRoles || (user && item.requiredRoles.includes(user.role))] *)
Definition visible (user : option AuthenticatedUser) (item : NavItem) : bool :=
  match requiredRoles item with
  | None => true
  | Some roles =>
      match user with
      | None => false
      | Some u => includes roles (role u)
      end
  end.

Definition filteredNavItems (user : option AuthenticatedUser) : list NavItem :=
  filter (visible user) navigationItems.

End Nav.

(** ** lib/notifications *)

Module Notifications.

(** ['applied' | 'approved' | 'rejected'] *)
Inductive LeaveStatus : Type := applied | approved | rejected.

Definition statusText (status : LeaveStatus) : string :=
  match status with
  | applied => "applied"
  | approved => "approved"
  | rejected => "rejected"
  end.

Inductive NotificationType : Type :=
| leave_status
| payroll_published
| approval_request.

(** The values of one inserted notification. *)
Record Notification : Type := mkNotification {
  n_user_id : string;
  n_title : string;
  n_message : string;
  n_type : NotificationType;
  n_created_at : Z;
  n_is_read : bool
}.

(** The tables next to the [notifications] table. *)
Record Store : Type := mkStore {
  store_db : Database;
  notifications : list Notification
}.

(** The driver and the clock: whether the [select] on [users] and the
    [insert] into [notifications] fail, and the instant the [k]-th
    [new Date()] of a call returns. *)
Record Driver : Type := mkDriver {
  selectFails : bool;
  insertFails : bool;
  clock : nat -> Z
}.

(** What [createPayrollNotification] returns. *)
Record ToastData : Type := mkToastData {
  toast_userId : string;
  toast_title : string;
  toast_message : string;
  toast_type : string
}.

(** [select({ id: users.id }).from(users).where(eq(users.role, 'hr'))] *)
Definition selectHrUsers (st : Store) : list string :=
  map users_id (filter (fun u => users_role u =? "hr") (users (store_db st))).

(** [l.map(f)], numbering the calls of [f]. *)
Definition mapIndexed {A B} (f : nat -> A -> B) (l : list A) : list B :=
  map (fun ka => f (fst ka) (snd ka)) (combine (seq 0 (length l)) l).

(** [insert(notifications).values(vs)]: all rows or none. *)
Definition insertNotifications (drv : Driver) (vs : list Notification) (st : Store)
  : Store * Exc unit :=
  if insertFails drv then (st, inl (ExternalFault "database"))
  else (mkStore (store_db st) (notifications st ++ vs), inr tt).

Section WithDriver.
Variable drv : Driver.

(** The common shape of the two functions that notify the HR users. *)
Definition notifyHr (make : nat -> string -> Notification) (st : Store)
  : Store * Exc unit :=
  if selectFails drv then (st, inl (ExternalFault "database"))
  else
    let hrUsers := selectHrUsers st in
    let notificationData := mapIndexed make hrUsers in
    if (0 <? length notificationData)%nat
    then insertNotifications drv notificationData st
    else (st, inr tt).

Definition createLeaveNotification (userId leaveId : string) (status : LeaveStatus)
  : Store -> Store * Exc unit :=
  notifyHr (fun k hr =>
              {| n_user_id := hr;
                 n_title := "Leave " ++ statusText status;
                 n_message := "Employee leave request has been " ++ statusText status;
                 n_type := leave_status;
                 n_created_at := clock drv k;
                 n_is_read := false |}).

Definition createPayrollNotification (userId payrollId : string) (st : Store)
  : Store * Exc ToastData :=
  let notification :=
    {| n_user_id := userId;
       n_title := "Payroll Published";
       n_message := "Your payroll has been published and is now available";
       n_type := payroll_published;
       n_created_at := clock drv 0;
       n_is_read := false |} in
  match insertNotifications drv [notification] st with
  | (st', inl e) => (st', inl e)
  | (st', inr _) =>
      (st', inr {| toast_userId := userId;
                   toast_title := "Payroll Published";
                   toast_message :=
                     "Your payroll has been published and is now available for viewing.";
                   toast_type := "success" |})
  end.

Definition createApprovalNotification (userId entityType action0 : string)
  : Store -> Store * Exc unit :=
  notifyHr (fun k hr =>
              {| n_user_id := hr;
                 n_title := entityType ++ " Approval Required";
                 n_message := "A new " ++ entityType ++ " requires your approval";
                 n_type := approval_request;
                 n_created_at := clock drv k;
                 n_is_read := false |}).

End WithDriver.

End Notifications.

(** ** Vocabulary of the statements *)

(** [p] is a prefix of [s]. *)
Definition HasPrefix (p s : string) : Prop := exists rest, s = p ++ rest.

(** [path] starts with one of [routes]. *)
Definition MatchesAny (routes : list string) (path : string) : Prop :=
  exists route, In route routes /\ HasPrefix route path.

(** Number of [insert] statements in a call log. *)
Definition inserts (l : list Event) : nat :=
  length (filter (fun e => match e with Query InsertAttendance => true | _ => false end) l).

(** The guard [if (!token)] finds no token: no cookie, or an empty one. *)
Definition NoToken (env : Env) : Prop :=
  exists cookie, env_getAuthCookie env = inr cookie /\ Rbac.present cookie = None.

(** The request carries the (non-empty) token [token]. *)
Definition TokenFound (env : Env) (token : string) : Prop :=
  exists cookie, env_getAuthCookie env = inr cookie /\ Rbac.present cookie = Some token.

(** The request carries a token that verifies to [payload]. *)
Definition ValidToken (env : Env) (token : string) (payload : TokenPayload) : Prop :=
  TokenFound env token /\ env_verifyToken env token = inr (Some payload).

(** The request carries a token that fails verification. *)
Definition InvalidToken (env : Env) (token : string) : Prop :=
  TokenFound env token /\ env_verifyToken env token = inr None.

(** An unexpected fault in one of the steps of [authenticateRequest]: the
    cookie read throws, the codec throws, or the user lookup fails. *)
Definition AuthFault (env : Env) : Prop :=
  (exists e, env_getAuthCookie env = inl e) \/
  (exists token e, TokenFound env token /\ env_verifyToken env token = inl e) \/
  (exists token payload, ValidToken env token payload /\ env_dbFault env SelectUser = true).

(** The notifications addressed to a user, oldest first. *)
Definition inbox (st : Notifications.Store) (user : string)
  : list Notifications.Notification :=
  filter (fun n => Notifications.n_user_id n =? user) (Notifications.notifications st).

(** What the [catch] of a handler makes of the outcome of its body. *)
Definition caught (r : Sys * Exc NextResponse) : Sys * Exc NextResponse :=
  match r with
  | (s, inl _) => (s, inr Attendance.internalError)
  | (s, inr answer) => (s, inr answer)
  end.

(** ** A sample deployment

    One employee and one administrator, three attendance rows, a token codec
    that accepts the single token ["good"], and a driver that never fails. *)

Module Sample.

Definition alice : UserRow :=
  mkUserRow "u1" "alice@dayflow.test" "employee" "Alice" "Ames" (Some "E-001").

Definition bob : UserRow :=
  mkUserRow "u2" "bob@dayflow.test" "admin" "Bob" "Burke" None.

Definition rows : list AttendanceRow :=
  [ mkAttendanceRow "a1" "u1" "2024-01-01" (Some 0%Z) (Some 33300000%Z)
      "present" None None None;
    mkAttendanceRow "a2" "u2" "2024-01-02" (Some 10%Z) (Some 5%Z)
      "present" None None None;
    mkAttendanceRow "a3" "u1" "2024-01-03" None None
      "present" None (Some 5%Z) None ].

Definition database : Database := mkDatabase [alice; bob] rows.

(** An employee row whose id is the empty string. *)
Definition ghost : UserRow :=
  mkUserRow "" "ghost@dayflow.test" "employee" "Guy" "Ghost" None.

Definition start : Sys := mkSys database [].

(** The world of a request whose cookie is [cookie]; the token ["good"]
    verifies to the payload [{ userId: uid, role: tokenRole }]. *)
Definition world (cookie : option string) (uid tokenRole : string) : Env :=
  {| env_getAuthCookie := inr cookie;
     env_verifyToken :=
       fun t => if t =? "good" then inr (Some (mkPayload uid tokenRole))
                else inr None;
     NODE_ENV := "production";
     env_dbFault := fun _ => false;
     env_dateLeb := String.leb;
     env_toISOString := fun ms => "T" ++ toString ms;
     env_newDate :=
       fun v => match v with JNum ms => ValidDate ms | _ => InvalidDate end;
     env_insertAttendance :=
       fun d v =>
         inr (mkDatabase (users d)
                (attendance d ++
                 [mkAttendanceRow "new" (new_user_id v) "2024-02-02" None None
                    (new_status v) None None None]),
              JObj [("id", JStr "new"); ("user_id", JStr (new_user_id v));
                    ("date", new_date v); ("status", JStr (new_status v))]) |}.

Definition request (path : string) (query : list (string * string)) : NextRequest :=
  mkRequest "http://localhost:3000" path query
    (inr (JObj [("date", JStr "2024-02-02")])).

End Sample.

(** ** More of the sample deployment: an HR user, the notification store
    and the driver of the update statement *)

Module Demo.
Import AttendanceUpdate Notifications.

Definition carol : UserRow :=
  mkUserRow "u3" "carol@dayflow.test" "hr" "Carol" "Cole" (Some "E-003").

Definition dora : UserRow :=
  mkUserRow "u4" "dora@dayflow.test" "hr" "Dora" "Dunn" (Some "E-004").

Definition database : Database :=
  mkDatabase [Sample.alice; Sample.bob; carol; dora] Sample.rows.

Definition start : Sys := mkSys database [].

Definition store : Store := mkStore database [].

(** A store without any HR user. *)
Definition storeWithoutHr : Store := mkStore Sample.database [].

Definition driver : Driver := mkDriver false false (fun k => 1700000000000 + Z.of_nat k)%Z.

(** A driver whose inserts always fail. *)
Definition failingInserts : Driver := mkDriver false true (fun _ => 0%Z).

(** An update statement that rewrites the status of the rows with the given
    id and rejects an id that is not a string. *)
Definition updateDriver : UpdateDriver :=
  {| drv_now := 1700000000000%Z;
     drv_update :=
       fun d id0 data =>
         match id0 with
         | JStr i =>
             let hit := fun a => attendance_id a =? i in
             inr (mkDatabase (users d)
                    (map (fun a =>
                            if hit a
                            then mkAttendanceRow (attendance_id a) (attendance_user_id a)
                                   (attendance_date a) (attendance_check_in a)
                                   (attendance_check_out a) "edited" None
                                   (attendance_created_at a) (Some 1700000000000%Z)
                            else a)
                       (attendance d)),
                  map (fun a => JObj [("id", JStr (attendance_id a));
                                      ("status", set_status data);
                                      ("notes", set_notes data)])
                    (filter hit (attendance d)))
         | _ => inl (ExternalFault "database")
         end |}.

(** A request with the given JSON body. *)
Definition requestWith (body : JsVal) : NextRequest :=
  mkRequest "http://localhost:3000" "/api/attendance" [] (inr body).

End Demo.

(** * Properties *)

(** ** Strings, lists and the monad *)

Lemma startsWith_spec (s p : string) : startsWith s p = true <-> HasPrefix p s.
Proof.
  unfold startsWith, HasPrefix. revert s.
  induction p as [|c p IH]; intros s.
  - split; [intros _; exists s; reflexivity | intros _; destruct s; reflexivity].
  - destruct s as [|d s]; simpl.
    + split; [discriminate | intros [rest H]; discriminate].
    + destruct (ascii_dec c d) as [->|Hcd].
      * rewrite IH. split; intros [rest H]; exists rest.
        -- now rewrite H.
        -- now injection H.
      * split; [discriminate | intros [rest H]; injection H; congruence].
Qed.

Lemma prefix_empty (s : string) : String.prefix "" s = true.
Proof. destruct s; reflexivity. Qed.

Lemma startsWith_false (s p : string) : startsWith s p = false <-> ~ HasPrefix p s.
Proof.
  rewrite <- startsWith_spec. destruct (startsWith s p); split; congruence.
Qed.

Lemma includes_spec (l : list string) (x : string) : includes l x = true <-> In x l.
Proof.
  unfold includes. rewrite existsb_exists. split.
  - intros [y [Hin Heq]]. apply String.eqb_eq in Heq. now subst.
  - intros Hin. exists x. split; [assumption | apply String.eqb_refl].
Qed.

Lemma includes_false (l : list string) (x : string) : includes l x = false <-> ~ In x l.
Proof.
  rewrite <- includes_spec. destruct (includes l x); split; congruence.
Qed.

Lemma truthyStr_false (s : string) : truthyStr s = false <-> s = "".
Proof.
  unfold truthyStr. destruct (String.eqb_spec s ""); simpl; split; congruence.
Qed.

Lemma present_Some (o : option string) (t : string) :
  Rbac.present o = Some t <-> o = Some t /\ t <> "".
Proof.
  unfold Rbac.present. destruct o as [u|]; [|split; [discriminate | intros [H _]; discriminate]].
  destruct (truthyStr u) eqn:E; split.
  - intros H; injection H as ->. split; [reflexivity|].
    intros ->. discriminate.
  - intros [H _]. assumption.
  - discriminate.
  - intros [H Hne]. injection H as ->. apply truthyStr_false in E. contradiction.
Qed.

Lemma present_None (o : option string) :
  Rbac.present o = None <-> o = None \/ o = Some "".
Proof.
  unfold Rbac.present. destruct o as [u|]; [|split; auto].
  destruct (truthyStr u) eqn:E; split; try discriminate.
  - intros [H|H]; [discriminate|]. injection H as ->. discriminate.
  - intros _. right. apply truthyStr_false in E. now subst.
  - reflexivity.
Qed.

#[global] Arguments Rbac.selectUserById : simpl never.

(** Unfolds the plumbing of the handler monad. *)
Ltac run :=
  unfold Rbac.getAuthCookie, Rbac.verifyToken, Rbac.runSelect;
  unfold tryCatch, bind, ret, throw, emit, liftExc, getDb, putDb;
  cbn beta iota delta [fst snd db log].

Lemma inserts_app (l l' : list Event) : inserts (l ++ l') = inserts l + inserts l'.
Proof. unfold inserts. now rewrite filter_app, length_app. Qed.

(** ** The permission table *)

Module RbacFacts.
Import Rbac.

Lemma matches_spec (r a : string) (p : Permission) :
  matches r a p = true <-> p = mkPermission r a.
Proof.
  unfold matches. destruct p as [r' a']; simpl.
  rewrite andb_true_iff, !String.eqb_eq. split.
  - intros [-> ->]. reflexivity.
  - intros H; injection H as -> ->. auto.
Qed.

Lemma some_spec (r a : string) (ps : list Permission) :
  existsb (matches r a) ps = true <-> In (mkPermission r a) ps.
Proof.
  rewrite existsb_exists. split.
  - intros [p [Hin Hm]]. apply matches_spec in Hm. now subst.
  - intros Hin. exists (mkPermission r a). split; [assumption | now apply matches_spec].
Qed.

(** The three cases of the lookup [ROLE_PERMISSIONS[user.role]]. *)
Lemma getProperty_cases (r : string) :
  (In r ["admin"; "hr"; "employee"] /\
   getProperty ROLE_PERMISSIONS r = Own (declared r)) \/
  (~ In r ["admin"; "hr"; "employee"] /\ declared r = [] /\
   ((In r objectPrototypeKeys /\ getProperty ROLE_PERMISSIONS r = Inherited) \/
    (~ In r objectPrototypeKeys /\ getProperty ROLE_PERMISSIONS r = Undefined))).
Proof.
  unfold getProperty, declared, ownProperty, ROLE_PERMISSIONS. cbn [find fst].
  destruct (String.eqb_spec "admin" r) as [<-|Ha]; [left; simpl; auto|].
  destruct (String.eqb_spec "hr" r) as [<-|Hh]; [left; simpl; auto|].
  destruct (String.eqb_spec "employee" r) as [<-|He]; [left; simpl; auto 6|].
  right. cbn [option_map]. split; [simpl; intuition congruence|]. split; [reflexivity|].
  destruct (includes objectPrototypeKeys r) eqn:E.
  - left. split; [now apply includes_spec | reflexivity].
  - right. split; [now apply includes_false | reflexivity].
Qed.

(** On the three declared roles [hasPermission] decides membership in the
    declared set. *)
Lemma hasPermission_declared (u : AuthenticatedUser) (r a : string) :
  In (role u) ["admin"; "hr"; "employee"] ->
  exists b, hasPermission u r a = inr b /\
            (b = true <-> In (mkPermission r a) (declared (role u))).
Proof.
  intros Hin. unfold hasPermission.
  destruct (getProperty_cases (role u)) as [[_ ->]|[Hn _]]; [|contradiction].
  eexists. split; [reflexivity | apply some_spec].
Qed.

(** A role that is neither declared nor a name of [Object.prototype] has no
    permission at all. *)
Lemma hasPermission_unknown (u : AuthenticatedUser) (r a : string) :
  ~ In (role u) ["admin"; "hr"; "employee"] ->
  ~ In (role u) objectPrototypeKeys ->
  hasPermission u r a = inr false.
Proof.
  intros Hn Hp. unfold hasPermission.
  destruct (getProperty_cases (role u)) as [[Hin _]|[_ [_ [[Hin _]|[_ ->]]]]];
    [contradiction | contradiction | reflexivity].
Qed.

(** Whenever [hasPermission] answers [true], the pair is declared for the
    user's role. *)
Lemma hasPermission_true (u : AuthenticatedUser) (r a : string) :
  hasPermission u r a = inr true -> In (mkPermission r a) (declared (role u)).
Proof.
  unfold hasPermission.
  destruct (getProperty_cases (role u)) as [[_ ->]|[_ [_ [[_ ->]|[_ ->]]]]];
    simpl; try discriminate.
  intros H. injection H as H. now apply some_spec.
Qed.

Lemma declared_role (r : string) (p : Permission) :
  In p (declared r) -> In r ["admin"; "hr"; "employee"].
Proof.
  destruct (getProperty_cases r) as [[Hin _]|[_ [-> _]]]; [auto | intros []].
Qed.

(** Only the employee role declares [('attendance', 'check_in')]. *)
Lemma check_in_employee_only (r : string) :
  In (mkPermission "attendance" "check_in") (declared r) -> r = "employee".
Proof.
  intros Hin. pose proof (declared_role _ _ Hin) as Hr.
  simpl in Hr. destruct Hr as [<-|[<-|[<-|[]]]]; [exfalso|exfalso|reflexivity].
  - apply some_spec in Hin. vm_compute in Hin. discriminate.
  - apply some_spec in Hin. vm_compute in Hin. discriminate.
Qed.

(** The roles that may view their own attendance but not everyone's. *)
Lemma view_own_only_employee (u : AuthenticatedUser) :
  hasPermission u "attendance" "view_own" = inr true -> role u = "employee".
Proof.
  intros H. apply hasPermission_true in H.
  pose proof (declared_role _ _ H) as Hr.
  simpl in Hr. destruct Hr as [E|[E|[E|[]]]]; rewrite <- E in H |- *;
    [exfalso|exfalso|reflexivity].
  - apply some_spec in H. vm_compute in H. discriminate.
  - apply some_spec in H. vm_compute in H. discriminate.
Qed.

End RbacFacts.

(** ** hasPermission, requirePermission, requireRole *)

(** C2 (defect): a user whose role names a member of [Object.prototype]
    makes [hasPermission] throw: [ROLE_PERMISSIONS['constructor']] is the
    inherited constructor, which is truthy, so the [|| []] default is not
    taken, and it has no [some] method.  The claim expects [false] for every
    role outside admin, hr and employee. *)
Theorem hasPermission_throws_on_prototype_role :
  ~ In "constructor" ["admin"; "hr"; "employee"] /\
  Rbac.hasPermission (mkUser "u9" "eve@dayflow.test" "constructor" "Eve" "Eke")
    "attendance" "view_all"
  = inl (TypeError "permissions.some is not a function").
Proof.
  split; [|reflexivity].
  simpl. intuition discriminate.
Qed.

(** C7: the checker built by [requirePermission(resource, action)] answers
    [{}] when [hasPermission] returns true and
    [{ error: 'Insufficient permissions', status: 403 }] when it returns
    false; the checker built by [requireRole(allowedRoles)] answers that same
    error object exactly when the user's role is not in [allowedRoles], and
    [{}] otherwise. *)
Theorem requirePermission_requireRole_spec
  (resource0 action0 : string) (allowedRoles : list string) (user : AuthenticatedUser) :
  (Rbac.hasPermission user resource0 action0 = inr true ->
   Rbac.requirePermission resource0 action0 user = inr (Rbac.mkCheck None None)) /\
  (Rbac.hasPermission user resource0 action0 = inr false ->
   Rbac.requirePermission resource0 action0 user
   = inr (Rbac.mkCheck (Some "Insufficient permissions") (Some 403%Z))) /\
  (~ In (role user) allowedRoles <->
   Rbac.requireRole allowedRoles user
   = Rbac.mkCheck (Some "Insufficient permissions") (Some 403%Z)) /\
  (In (role user) allowedRoles <->
   Rbac.requireRole allowedRoles user = Rbac.mkCheck None None).
Proof.
  unfold Rbac.requirePermission, Rbac.requireRole.
  repeat split.
  - intros ->. reflexivity.
  - intros ->. reflexivity.
  - intros H. apply includes_false in H. now rewrite H.
  - destruct (includes allowedRoles (role user)) eqn:E; simpl.
    + discriminate.
    + intros _. now apply includes_false.
  - intros H. apply includes_spec in H. now rewrite H.
  - destruct (includes allowedRoles (role user)) eqn:E; simpl.
    + intros _. now apply includes_spec.
    + discriminate.
Qed.

(** The checker at work on the sample administrator and employee. *)
Lemma requirePermission_requireRole_spec_witness :
  Rbac.requirePermission "attendance" "edit" (Rbac.selectUser Sample.bob)
  = inr (Rbac.mkCheck None None) /\
  Rbac.requirePermission "attendance" "edit" (Rbac.selectUser Sample.alice)
  = inr (Rbac.mkCheck (Some "Insufficient permissions") (Some 403%Z)) /\
  Rbac.requireHR (Rbac.selectUser Sample.alice)
  = Rbac.mkCheck (Some "Insufficient permissions") (Some 403%Z).
Proof.
  pose proof (requirePermission_requireRole_spec "attendance" "edit" ["hr"; "admin"]
                (Rbac.selectUser Sample.bob)) as [Hb _].
  pose proof (requirePermission_requireRole_spec "attendance" "edit" ["hr"; "admin"]
                (Rbac.selectUser Sample.alice)) as [_ [Ha [Hr _]]].
  split; [apply Hb; reflexivity|].
  split; [apply Ha; reflexivity|].
  apply Hr. simpl. intuition discriminate.
Defined.

(** ** authenticateRequest *)

Module AuthFacts.
Import Rbac.

Lemma selectUserById_cases (uid : string) (d : Database) :
  (selectUserById uid d = [] /\
   forall row, In row (users d) -> users_id row <> uid) \/
  (exists row, In row (users d) /\ users_id row = uid /\
               selectUserById uid d = [selectUser row]).
Proof.
  unfold selectUserById.
  destruct (filter (fun r => users_id r =? uid) (users d)) as [|row rest] eqn:E.
  - left. split; [reflexivity|]. intros row Hin Hid.
    assert (In row []) as []. rewrite <- E. apply filter_In.
    split; [assumption | now apply String.eqb_eq].
  - right. exists row.
    assert (In row (filter (fun r => users_id r =? uid) (users d))) as Hin
      by (rewrite E; now left).
    apply filter_In in Hin. destruct Hin as [Hin Hid].
    apply String.eqb_eq in Hid. auto.
Qed.

(** The answer of [authenticateRequest] as a function of the world. *)
Lemma authenticateRequest_eval (env : Env) (request : NextRequest) (s : Sys) :
  snd (authenticateRequest env request s) =
  inr match env_getAuthCookie env with
      | inl _ => authError "Authentication failed" 500
      | inr cookie =>
          match present cookie with
          | None => authError "No authentication token found" 401
          | Some token =>
              match env_verifyToken env token with
              | inl _ => authError "Authentication failed" 500
              | inr None => authError "Invalid token" 401
              | inr (Some payload) =>
                  if env_dbFault env SelectUser
                  then authError "Authentication failed" 500
                  else match selectUserById (userId payload) (db s) with
                       | [] => authError "User not found" 404
                       | user :: _ => authUser user
                       end
              end
          end
      end.
Proof.
  unfold authenticateRequest. run.
  destruct (env_getAuthCookie env) as [e|cookie]; [reflexivity|].
  destruct (present cookie) as [token|]; [|reflexivity]. cbn.
  destruct (env_verifyToken env token) as [e|[payload|]]; [reflexivity| |reflexivity].
  cbn. destruct (env_dbFault env SelectUser); [reflexivity|].
  cbn -[selectUserById].
  destruct (selectUserById (userId payload) (db s)); reflexivity.
Qed.

(** [authenticateRequest] only reads: the tables are left as they were and
    no [insert] is issued. *)
Lemma authenticateRequest_reads (env : Env) (request : NextRequest) (s : Sys) :
  db (fst (authenticateRequest env request s)) = db s /\
  inserts (log (fst (authenticateRequest env request s))) = inserts (log s).
Proof.
  assert (forall l l', inserts l' = 0 -> inserts (l ++ l') = inserts l) as Happ
    by (intros l l' H; rewrite inserts_app; lia).
  unfold authenticateRequest. run.
  destruct (env_getAuthCookie env) as [e|cookie]; run;
    [split; [reflexivity | now apply Happ]|].
  destruct (present cookie) as [token|]; run;
    [|split; [reflexivity | now apply Happ]].
  destruct (env_verifyToken env token) as [e|[payload|]]; run;
    try (split; [reflexivity | now rewrite !Happ]).
  destruct (env_dbFault env SelectUser); run;
    [split; [reflexivity | now rewrite !Happ]|].
  destruct (selectUserById (userId payload) (db s)); run;
    (split; [reflexivity | now rewrite !Happ]).
Qed.

End AuthFacts.

(** C1, amended: [authenticateRequest] never throws and answers with one of
    four failures or a user.  No token: 401 'No authentication token found'.
    A token that fails verification: 401 'Invalid token', without a user.
    A verified payload whose [userId] is the id of no user row: 404
    'User not found'.  A fault in any step: 500 'Authentication failed'.
    Otherwise the answer is the user built from the stored row whose id is
    the payload's [userId]: its id, email, role and names are the row's, so
    the role returned is the one in the user store. *)
Theorem authenticateRequest_outcomes (env : Env) (request : NextRequest) (s : Sys) :
  let result := snd (Rbac.authenticateRequest env request s) in
  (NoToken env ->
   result = inr (Rbac.mkAuth None (Some "No authentication token found") (Some 401%Z))) /\
  (forall token, InvalidToken env token ->
   result = inr (Rbac.mkAuth None (Some "Invalid token") (Some 401%Z))) /\
  (forall token payload, ValidToken env token payload ->
   env_dbFault env SelectUser = false ->
   (forall row, In row (users (db s)) -> users_id row <> userId payload) ->
   result = inr (Rbac.mkAuth None (Some "User not found") (Some 404%Z))) /\
  (AuthFault env ->
   result = inr (Rbac.mkAuth None (Some "Authentication failed") (Some 500%Z))) /\
  (forall token payload, ValidToken env token payload ->
   env_dbFault env SelectUser = false ->
   (exists row, In row (users (db s)) /\ users_id row = userId payload) ->
   exists row, In row (users (db s)) /\ users_id row = userId payload /\
     result = inr (Rbac.mkAuth
                     (Some (mkUser (users_id row) (users_email row) (users_role row)
                                   (users_first_name row) (users_last_name row)))
                     None None)) /\
  (exists answer, result = inr answer /\
     (answer = Rbac.mkAuth None (Some "No authentication token found") (Some 401%Z) \/
      answer = Rbac.mkAuth None (Some "Invalid token") (Some 401%Z) \/
      answer = Rbac.mkAuth None (Some "User not found") (Some 404%Z) \/
      answer = Rbac.mkAuth None (Some "Authentication failed") (Some 500%Z) \/
      exists user, answer = Rbac.mkAuth (Some user) None None)).
Proof.
  intros result. subst result. rewrite AuthFacts.authenticateRequest_eval.
  unfold NoToken, InvalidToken, ValidToken, AuthFault, TokenFound.
  repeat apply conj.
  - intros [cookie [-> ->]]. reflexivity.
  - intros token [[cookie [-> ->]] ->]. reflexivity.
  - intros token payload [[cookie [-> ->]] ->] -> Hnone.
    destruct (AuthFacts.selectUserById_cases (userId payload) (db s))
      as [[-> _]|[row [Hin [Hid _]]]]; [reflexivity|].
    now apply Hnone in Hin.
  - intros [[e ->]|[[token [e [[cookie [-> ->]] ->]]]
                   |[token [payload [[[cookie [-> ->]] ->] ->]]]]]; reflexivity.
  - intros token payload [[cookie [-> ->]] ->] -> [row0 [Hin0 Hid0]].
    destruct (AuthFacts.selectUserById_cases (userId payload) (db s))
      as [[_ Hnone]|[row [Hin [Hid ->]]]].
    + now apply Hnone in Hin0.
    + exists row. auto.
  - eexists. split; [reflexivity|].
    destruct (env_getAuthCookie env) as [e|cookie]; [auto|].
    destruct (Rbac.present cookie) as [token|]; [|auto].
    destruct (env_verifyToken env token) as [e|[payload|]]; [auto| |auto].
    destruct (env_dbFault env SelectUser); [auto|].
    destruct (Rbac.selectUserById (userId payload) (db s)) as [|user rest]; [auto|].
    do 4 right. exists user. reflexivity.
Qed.

(** The sample employee signs in with a token whose role claim is stale. *)
Lemma authenticateRequest_outcomes_witness :
  exists row, In row (users Sample.database) /\ users_id row = "u1" /\
    snd (Rbac.authenticateRequest (Sample.world (Some "good") "u1" "admin")
           (Sample.request "/api/attendance" []) Sample.start)
    = inr (Rbac.mkAuth
             (Some (mkUser (users_id row) (users_email row) (users_role row)
                           (users_first_name row) (users_last_name row)))
             None None).
Proof.
  refine (proj1 (proj2 (proj2 (proj2 (proj2
            (authenticateRequest_outcomes (Sample.world (Some "good") "u1" "admin")
               (Sample.request "/api/attendance" []) Sample.start)))))
            "good" (mkPayload "u1" "admin") _ eq_refl _).
  - split; [exists (Some "good"); split; reflexivity | reflexivity].
  - exists Sample.alice. split; [now left | reflexivity].
Defined.

(** C1 as stated fails: the role returned is the stored one, not the
    token's.  The sample employee presents a valid token that still claims
    the admin role and is answered with the employee role. *)
Lemma authenticateRequest_role_is_not_token_role :
  ~ (forall (env : Env) (request : NextRequest) (s : Sys)
            (token : string) (payload : TokenPayload) (user : AuthenticatedUser),
       ValidToken env token payload ->
       snd (Rbac.authenticateRequest env request s)
       = inr (Rbac.mkAuth (Some user) None None) ->
       role user = payload_role payload).
Proof.
  intros H.
  specialize (H (Sample.world (Some "good") "u1" "admin")
                (Sample.request "/api/attendance" []) Sample.start
                "good" (mkPayload "u1" "admin") (Rbac.selectUser Sample.alice)).
  assert (role (Rbac.selectUser Sample.alice) = "admin") as Habs.
  { apply H.
    - split; [exists (Some "good"); split; reflexivity | reflexivity].
    - reflexivity. }
  discriminate Habs.
Qed.

(** C8: two calls of [authenticateRequest] with the same valid token, the
    second one starting where the first one ended (so against the same user
    store), return the same user: when the first call returns a user and the
    lookup of the second does not fail, the second call returns that very
    user, and the store is unchanged. *)
Theorem authenticateRequest_idempotent
  (env1 env2 : Env) (request1 request2 : NextRequest) (s : Sys)
  (token : string) (payload : TokenPayload) (user : AuthenticatedUser) :
  ValidToken env1 token payload ->
  ValidToken env2 token payload ->
  env_dbFault env2 SelectUser = false ->
  snd (Rbac.authenticateRequest env1 request1 s) = inr (Rbac.mkAuth (Some user) None None) ->
  let s1 := fst (Rbac.authenticateRequest env1 request1 s) in
  snd (Rbac.authenticateRequest env2 request2 s1) = inr (Rbac.mkAuth (Some user) None None) /\
  db (fst (Rbac.authenticateRequest env2 request2 s1)) = db s.
Proof.
  intros [[c1 [Hc1 Hp1]] Hv1] [[c2 [Hc2 Hp2]] Hv2] Hf2 H1 s1.
  destruct (AuthFacts.authenticateRequest_reads env1 request1 s) as [Hdb1 _].
  destruct (AuthFacts.authenticateRequest_reads env2 request2 s1) as [Hdb2 _].
  fold s1 in Hdb1. split; [|congruence].
  rewrite AuthFacts.authenticateRequest_eval in H1 |- *.
  rewrite Hc1, Hp1, Hv1 in H1. rewrite Hc2, Hp2, Hv2, Hf2, Hdb1.
  destruct (env_dbFault env1 SelectUser); [discriminate|].
  exact H1.
Qed.

(** The sample employee authenticates twice in a row. *)
Lemma authenticateRequest_idempotent_witness :
  let env := Sample.world (Some "good") "u1" "employee" in
  let request := Sample.request "/api/attendance" [] in
  let s1 := fst (Rbac.authenticateRequest env request Sample.start) in
  snd (Rbac.authenticateRequest env request s1)
  = inr (Rbac.mkAuth (Some (Rbac.selectUser Sample.alice)) None None) /\
  db (fst (Rbac.authenticateRequest env request s1)) = db Sample.start.
Proof.
  intros env request.
  apply (authenticateRequest_idempotent env env request request Sample.start
           "good" (mkPayload "u1" "employee") (Rbac.selectUser Sample.alice)).
  - split; [exists (Some "good"); split; reflexivity | reflexivity].
  - split; [exists (Some "good"); split; reflexivity | reflexivity].
  - reflexivity.
  - reflexivity.
Defined.

(** ** The route guard *)

Module GuardFacts.
Import Rbac Middleware.

Lemma isPublic_spec (p : string) : isPublic p = true <-> MatchesAny publicRoutes p.
Proof.
  unfold isPublic, MatchesAny. rewrite existsb_exists.
  split; intros [route [Hin H]]; exists route; split; auto; now apply startsWith_spec.
Qed.

Lemma isPublic_false (p : string) : isPublic p = false <-> ~ MatchesAny publicRoutes p.
Proof.
  rewrite <- isPublic_spec. destruct (isPublic p); split; congruence.
Qed.

Lemma redirectsWithoutToken_spec (p : string) :
  redirectsWithoutToken p = true <->
  HasPrefix "/app/" p \/ HasPrefix "/api/" p \/ p = "/" \/
  HasPrefix "/dashboard" p \/ HasPrefix "/attendance" p \/
  HasPrefix "/documents" p \/ HasPrefix "/leave" p \/ HasPrefix "/payroll" p.
Proof.
  unfold redirectsWithoutToken.
  rewrite !orb_true_iff, !startsWith_spec, String.eqb_eq. tauto.
Qed.

(** The answer of the guard as a function of the world. *)
Lemma middleware_eval (env : Env) (request : NextRequest) (s : Sys) :
  isPublic (req_pathname request) = false ->
  snd (middleware env request s) =
  match env_getAuthCookie env with
  | inl e => inl e
  | inr cookie =>
      match present cookie with
      | None =>
          if redirectsWithoutToken (req_pathname request)
          then inr (Redirect (loginUrl request) [])
          else inr Next
      | Some token =>
          match env_verifyToken env token with
          | inl e => inl e
          | inr None => inr (Redirect (loginUrl request) [clearedCookie env])
          | inr (Some payload) =>
              match present (protectedRoute (req_pathname request)) with
              | None => inr Next
              | Some route =>
                  match getProperty roleBasedRoutes route with
                  | Undefined => inr Next
                  | Inherited =>
                      inl (TypeError "requiredRoles.includes is not a function")
                  | Own requiredRoles =>
                      if negb (includes requiredRoles (payload_role payload))
                      then inr (Redirect (dashboardUrl request) [])
                      else inr Next
                  end
              end
          end
      end
  end.
Proof.
  intros Hpub. unfold middleware. rewrite Hpub. run.
  destruct (env_getAuthCookie env) as [e|cookie]; run; [reflexivity|].
  destruct (present cookie) as [token|]; run;
    [|destruct (redirectsWithoutToken (req_pathname request)); reflexivity].
  destruct (env_verifyToken env token) as [e|[payload|]]; run; try reflexivity.
  destruct (present (protectedRoute (req_pathname request))) as [route|];
    [|reflexivity].
  destruct (getProperty roleBasedRoutes route) as [requiredRoles| |];
    try reflexivity.
  destruct (negb (includes requiredRoles (payload_role payload))); reflexivity.
Qed.

(** A path under a role-gated prefix is not public, and the rule found for
    it is that prefix's. *)
Lemma gated_route (route : string) (allowed : list string) (p : string) :
  In (route, allowed) roleBasedRoutes -> HasPrefix route p ->
  isPublic p = false /\
  present (protectedRoute p) = Some route /\
  getProperty roleBasedRoutes route = Own allowed.
Proof.
  intros Hin [rest ->]. simpl in Hin.
  repeat (destruct Hin as [Hin|Hin];
          [injection Hin as <- <-;
           unfold isPublic, protectedRoute, present, startsWith;
           simpl; rewrite ?prefix_empty; auto|]).
  destruct Hin.
Qed.

End GuardFacts.

(** C6: a request whose path starts with a public-route prefix passes
    through whatever the cookie store and the codec would answer: the guard
    returns [NextResponse.next()] and makes no call at all (no cookie read,
    no verification), so the call log is unchanged. *)
Theorem middleware_public_passthrough (env : Env) (request : NextRequest) (s : Sys) :
  MatchesAny
    ["/auth/login"; "/auth/register"; "/api/auth/login"; "/api/auth/register";
     "/api/auth/logout"]
    (req_pathname request) ->
  Middleware.middleware env request s = (s, inr Next).
Proof.
  intros H. apply GuardFacts.isPublic_spec in H.
  unfold Middleware.middleware. rewrite H. reflexivity.
Qed.

(** A login request passes even when reading the cookie would throw. *)
Lemma middleware_public_passthrough_witness :
  let env :=
    mkEnv (inl (ExternalFault "cookies")) (fun _ => inl (ExternalFault "codec"))
      "production" (fun _ => true) String.leb (fun _ => "")
      (fun _ => InvalidDate) (fun _ _ => inl (ExternalFault "database")) in
  Middleware.middleware env (Sample.request "/auth/login" []) Sample.start
  = (Sample.start, inr Next).
Proof.
  intros env. apply middleware_public_passthrough.
  exists "/auth/login". split; [now left | exists ""; reflexivity].
Defined.

(** C3: on a non-public path, when the guard finds no token, it redirects to
    /auth/login exactly when the path starts with '/app/' or '/api/', is '/',
    or starts with '/dashboard', '/attendance', '/documents', '/leave' or
    '/payroll'; every other path passes through, among them '/employees',
    '/reports' and '/settings' and the paths below them. *)
Theorem middleware_without_token (env : Env) (request : NextRequest) (s : Sys) :
  ~ MatchesAny Middleware.publicRoutes (req_pathname request) ->
  NoToken env ->
  let path := req_pathname request in
  let result := snd (Middleware.middleware env request s) in
  let listed :=
    HasPrefix "/app/" path \/ HasPrefix "/api/" path \/ path = "/" \/
    HasPrefix "/dashboard" path \/ HasPrefix "/attendance" path \/
    HasPrefix "/documents" path \/ HasPrefix "/leave" path \/
    HasPrefix "/payroll" path in
  (result = inr (Redirect (mkURL (req_origin request) "/auth/login" []) []) <-> listed) /\
  (~ listed -> result = inr Next) /\
  (HasPrefix "/employees" path \/ HasPrefix "/reports" path \/
   HasPrefix "/settings" path -> result = inr Next).
Proof.
  intros Hpub [cookie [Hc Hp]] path result listed.
  apply GuardFacts.isPublic_false in Hpub.
  subst result. rewrite (GuardFacts.middleware_eval env request s Hpub), Hc, Hp.
  pose proof (GuardFacts.redirectsWithoutToken_spec path) as Hspec.
  fold listed in Hspec. fold path.
  destruct (Middleware.redirectsWithoutToken path) eqn:E.
  - assert (listed) as Hl by now apply Hspec.
    split; [split; [auto | reflexivity]|].
    split; [intros Hn; contradiction|].
    intros [[rest Hin]|[[rest Hin]|[rest Hin]]]; rewrite Hin in E; discriminate E.
  - assert (~ listed) as Hl by (intros Hl; apply Hspec in Hl; discriminate).
    split; [split; [discriminate | intros Hl'; contradiction]|].
    split; reflexivity.
Qed.

(** Without a cookie, '/employees' passes through. *)
Lemma middleware_without_token_witness :
  snd (Middleware.middleware (Sample.world None "u1" "employee")
         (Sample.request "/employees" []) Sample.start) = inr Next.
Proof.
  refine (proj2 (proj2 (middleware_without_token (Sample.world None "u1" "employee")
                          (Sample.request "/employees" []) Sample.start _ _)) _).
  - apply GuardFacts.isPublic_false. reflexivity.
  - exists None. split; reflexivity.
  - left. exists "". reflexivity.
Defined.

(** C4: on a non-public path, a token that fails verification makes the
    guard redirect to /auth/login and clear the session cookie: 'auth-token'
    is set to the empty value with maxAge 0, httpOnly, sameSite lax and
    path '/' (and secure in production). *)
Theorem middleware_invalid_token
  (env : Env) (request : NextRequest) (s : Sys) (token : string) :
  ~ MatchesAny Middleware.publicRoutes (req_pathname request) ->
  InvalidToken env token ->
  snd (Middleware.middleware env request s) =
  inr (Redirect (mkURL (req_origin request) "/auth/login" [])
         [ {| cookie_name := "auth-token";
              cookie_value := "";
              cookie_httpOnly := true;
              cookie_secure := (NODE_ENV env =? "production");
              cookie_sameSite := "lax";
              cookie_maxAge := 0;
              cookie_path := "/" |} ]).
Proof.
  intros Hpub [[cookie [Hc Hp]] Hv].
  apply GuardFacts.isPublic_false in Hpub.
  rewrite (GuardFacts.middleware_eval env request s Hpub), Hc, Hp, Hv.
  reflexivity.
Qed.

(** A corrupted token on '/dashboard'. *)
Lemma middleware_invalid_token_witness :
  snd (Middleware.middleware (Sample.world (Some "corrupted") "u1" "employee")
         (Sample.request "/dashboard" []) Sample.start) =
  inr (Redirect (mkURL "http://localhost:3000" "/auth/login" [])
         [ mkSetCookie "auth-token" "" true true "lax" 0 "/" ]).
Proof.
  apply (middleware_invalid_token (Sample.world (Some "corrupted") "u1" "employee")
           (Sample.request "/dashboard" []) Sample.start "corrupted").
  - apply GuardFacts.isPublic_false. reflexivity.
  - split; [exists (Some "corrupted"); split; reflexivity | reflexivity].
Defined.

(** C5: with a valid token, on a path under a role-gated prefix, the guard
    redirects to /dashboard?error=insufficient_permissions when the token's
    role is not among the roles allowed for that prefix, and passes the
    request through when it is. *)
Theorem middleware_role_gate
  (env : Env) (request : NextRequest) (s : Sys)
  (token : string) (payload : TokenPayload) (route : string) (allowed : list string) :
  ValidToken env token payload ->
  In (route, allowed) Middleware.roleBasedRoutes ->
  HasPrefix route (req_pathname request) ->
  let result := snd (Middleware.middleware env request s) in
  let target :=
    mkURL (req_origin request) "/dashboard" [("error", "insufficient_permissions")] in
  (~ In (payload_role payload) allowed -> result = inr (Redirect target [])) /\
  (In (payload_role payload) allowed -> result = inr Next) /\
  pathAndQuery target = "/dashboard?error=insufficient_permissions".
Proof.
  intros [[cookie [Hc Hp]] Hv] Hin Hpre result target.
  destruct (GuardFacts.gated_route route allowed _ Hin Hpre) as [Hpub [Hroute Hown]].
  subst result.
  rewrite (GuardFacts.middleware_eval env request s Hpub), Hc, Hp, Hv, Hroute, Hown.
  repeat split.
  - intros Hn. apply includes_false in Hn. rewrite Hn. reflexivity.
  - intros Hy. apply includes_spec in Hy. rewrite Hy. reflexivity.
Qed.

(** '/employees' with a valid employee token is sent to the dashboard; with
    a valid hr token it passes. *)
Lemma middleware_role_gate_witness :
  snd (Middleware.middleware (Sample.world (Some "good") "u1" "employee")
         (Sample.request "/employees" []) Sample.start)
  = inr (Redirect (mkURL "http://localhost:3000" "/dashboard"
                     [("error", "insufficient_permissions")]) []) /\
  snd (Middleware.middleware (Sample.world (Some "good") "u1" "hr")
         (Sample.request "/employees" []) Sample.start)
  = inr Next.
Proof.
  split.
  - refine (proj1 (middleware_role_gate (Sample.world (Some "good") "u1" "employee")
                     (Sample.request "/employees" []) Sample.start
                     "good" (mkPayload "u1" "employee") "/employees" ["hr"; "admin"]
                     _ _ _) _).
    + split; [exists (Some "good"); split; reflexivity | reflexivity].
    + now left.
    + exists "". reflexivity.
    + simpl. intuition discriminate.
  - refine (proj1 (proj2 (middleware_role_gate (Sample.world (Some "good") "u1" "hr")
                     (Sample.request "/employees" []) Sample.start
                     "good" (mkPayload "u1" "hr") "/employees" ["hr"; "admin"]
                     _ _ _)) _).
    + split; [exists (Some "good"); split; reflexivity | reflexivity].
    + now left.
    + exists "". reflexivity.
    + simpl. now left.
Defined.

(** ** The attendance handlers *)

Module AttendanceFacts.
Import Rbac Attendance.

(** [authenticateRequest] answers with a user or with a non-empty error. *)
Lemma authenticateRequest_shape (env : Env) (request : NextRequest) (s : Sys) :
  exists s1 auth,
    authenticateRequest env request s = (s1, inr auth) /\
    db s1 = db s /\ inserts (log s1) = inserts (log s) /\
    ((exists user, auth = authUser user) \/ authenticated auth = None).
Proof.
  pose proof (AuthFacts.authenticateRequest_eval env request s) as Hev.
  pose proof (AuthFacts.authenticateRequest_reads env request s) as [Hdb Hlog].
  destruct (authenticateRequest env request s) as [s1 r]. cbn [fst snd] in *.
  subst r. do 2 eexists. split; [reflexivity|]. split; [assumption|].
  split; [assumption|].
  destruct (env_getAuthCookie env) as [e|cookie]; [now right|].
  destruct (present cookie) as [token|]; [|now right].
  destruct (env_verifyToken env token) as [e|[payload|]]; [now right| |now right].
  destruct (env_dbFault env SelectUser); [now right|].
  destruct (selectUserById (userId payload) (db s)) as [|user rest]; [now right|].
  left. now exists user.
Qed.

Lemma insertDesc_In (env : Env) (x j : Joined) (l : list Joined) :
  In j (insertDesc env x l) <-> j = x \/ In j l.
Proof.
  induction l as [|y l IH]; simpl.
  - intuition.
  - destruct (env_dateLeb env (attendance_date (fst y)) (attendance_date (fst x))); simpl.
    + intuition.
    + rewrite IH. intuition.
Qed.

(** Ordering keeps exactly the rows it is given. *)
Lemma orderByDateDesc_In (env : Env) (j : Joined) (l : list Joined) :
  In j (orderByDateDesc env l) <-> In j l.
Proof.
  unfold orderByDateDesc. induction l as [|x l IH]; simpl.
  - tauto.
  - rewrite insertDesc_In, IH. intuition.
Qed.

(** Every row selected under a [user_id] condition is a row of the join
    that belongs to that user. *)
Lemma selectedRows_scoped (env : Env) (uid : string) (rest : list Condition)
  (d : Database) :
  Forall (fun j => In j (leftJoin d) /\ attendance_user_id (fst j) = uid)
         (selectedRows env (UserIdEq uid :: rest) d).
Proof.
  apply Forall_forall. intros j Hin.
  unfold selectedRows in Hin. apply orderByDateDesc_In in Hin.
  cbn [applyWhere] in Hin. apply filter_In in Hin. destruct Hin as [Hin Hc].
  split; [assumption|].
  cbn [forallb holds] in Hc. apply andb_true_iff in Hc. destruct Hc as [Hc _].
  now apply String.eqb_eq.
Qed.

Lemma conditionsFor_own (uid : string) (from to : option string) :
  uid <> "" ->
  exists rest, conditionsFor (Some uid) from to = UserIdEq uid :: rest.
Proof.
  intros Hne. unfold conditionsFor.
  assert (present (Some uid) = Some uid) as -> by (apply present_Some; auto).
  eexists. reflexivity.
Qed.

(** The listing step of GET. *)
Lemma listAttendance_eval (env : Env) (effectiveUserId from to : option string) (s : Sys) :
  snd (listAttendance env effectiveUserId from to s) =
  if env_dbFault env SelectAttendance then inl (ExternalFault "database")
  else inr (Json (RecordsBody
                    (map (toAttendanceRecord env)
                       (map project
                          (selectedRows env
                             (conditionsFor effectiveUserId from to) (db s)))))
                 200).
Proof.
  unfold listAttendance. run.
  destruct (env_dbFault env SelectAttendance); reflexivity.
Qed.

(** GET for a caller who may view only their own attendance. *)
Lemma GET_own_eval (env : Env) (request : NextRequest) (s s1 : Sys)
  (user : AuthenticatedUser) :
  authenticateRequest env request s = (s1, inr (authUser user)) ->
  hasPermission user "attendance" "view_own" = inr true ->
  hasPermission user "attendance" "view_all" = inr false ->
  snd (GET env request s) =
  match present (searchParams_get request "userId") with
  | Some other =>
      if negb (other =? id user) then inr forbidden
      else match snd (listAttendance env (Some (id user))
                        (searchParams_get request "from")
                        (searchParams_get request "to") s1) with
           | inl _ => inr internalError
           | inr r => inr r
           end
  | None =>
      match snd (listAttendance env (Some (id user))
                   (searchParams_get request "from")
                   (searchParams_get request "to") s1) with
      | inl _ => inr internalError
      | inr r => inr r
      end
  end.
Proof.
  intros Hauth Hown Hall. unfold GET.
  unfold tryCatch, bind at 1. rewrite Hauth.
  cbn [authenticated authUser auth_error auth_user truthyOpt].
  unfold canViewAllAttendance, canViewOwnAttendance. rewrite Hall, Hown.
  unfold bind, liftExc, ret. cbn beta iota.
  destruct (present (searchParams_get request "userId")) as [other|].
  - destruct (negb (other =? id user)); [reflexivity|].
    destruct (listAttendance env _ _ _ s1) as [s2 [e|r]]; reflexivity.
  - destruct (listAttendance env _ _ _ s1) as [s2 [e|r]]; reflexivity.
Qed.

(** POST, once [authenticateRequest] has answered. *)
Lemma POST_eval (env : Env) (request : NextRequest) (s s1 : Sys) (auth : AuthResult) :
  authenticateRequest env request s = (s1, inr auth) ->
  POST env request s =
  match authenticated auth with
  | None => (s1, inr (unauthenticated auth))
  | Some user =>
      match hasPermission user "attendance" "check_in" with
      | inl _ => (s1, inr internalError)
      | inr false => (s1, inr forbidden)
      | inr true =>
          tryCatch
            (body <- liftExc (req_json request) ;;
             match body with
             | JUndefined | JNull =>
                 throw (TypeError "Cannot destructure property 'date'")
             | _ =>
                 if negb (truthy (field body "date"))
                 then ret (Json (ErrorBody (Some "Date is required")) 400)
                 else
                   newRecord <- insertAttendance env
                     {| new_user_id := id user;
                        new_date := field body "date";
                        new_check_in := dateOrNull env (field body "checkIn");
                        new_check_out := dateOrNull env (field body "checkOut");
                        new_status := "present";
                        new_notes := if truthy (field body "notes")
                                     then field body "notes" else JNull |} ;;
                   ret (Json (ValueBody newRecord) 201)
             end)
            (fun _ => ret internalError) s1
      end
  end.
Proof.
  intros Hauth. unfold POST.
  unfold tryCatch, bind at 1. rewrite Hauth.
  destruct (authenticated auth) as [user|]; [|reflexivity].
  unfold requirePermission.
  destruct (hasPermission user "attendance" "check_in") as [e|[|]]; reflexivity.
Qed.

End AttendanceFacts.

(** C9: neither the admin nor the hr permission set declares
    ('attendance', 'check_in'); so for an authenticated admin or hr user
    POST /api/attendance answers { error: 'Insufficient permissions' } with
    status 403, leaves the tables as they were and issues no insert; and
    whenever POST does issue an insert or change the tables, the
    authenticated user's role is employee. *)
Theorem POST_check_in_employee_only (env : Env) (request : NextRequest) (s : Sys) :
  let auth := snd (Rbac.authenticateRequest env request s) in
  let after := fst (Attendance.POST env request s) in
  ~ In (mkPermission "attendance" "check_in") (Rbac.declared "admin") /\
  ~ In (mkPermission "attendance" "check_in") (Rbac.declared "hr") /\
  (forall user,
     auth = inr (Rbac.mkAuth (Some user) None None) ->
     role user = "admin" \/ role user = "hr" ->
     snd (Attendance.POST env request s)
     = inr (Json (ErrorBody (Some "Insufficient permissions")) 403) /\
     db after = db s /\ inserts (log after) = inserts (log s)) /\
  (inserts (log after) <> inserts (log s) \/ db after <> db s ->
   exists user,
     auth = inr (Rbac.mkAuth (Some user) None None) /\ role user = "employee").
Proof.
  intros auth after. subst auth after.
  assert (forall r, r = "admin" \/ r = "hr" ->
                    ~ In (mkPermission "attendance" "check_in") (Rbac.declared r))
    as Hdecl.
  { intros r Hr Hin. apply RbacFacts.check_in_employee_only in Hin.
    destruct Hr; subst; discriminate. }
  split; [apply Hdecl; now left|]. split; [apply Hdecl; now right|].
  destruct (AttendanceFacts.authenticateRequest_shape env request s)
    as [s1 [auth [Hauth [Hdb [Hlog Hshape]]]]].
  rewrite (AttendanceFacts.POST_eval env request s s1 auth Hauth), Hauth.
  cbn [snd]. split.
  - intros user Heq Hrole. injection Heq as ->.
    cbn [Attendance.authenticated Rbac.auth_error Rbac.auth_user truthyOpt].
    destruct (RbacFacts.hasPermission_declared user "attendance" "check_in")
      as [b [Hb Hiff]].
    { simpl. destruct Hrole as [->| ->]; auto. }
    rewrite Hb. destruct b.
    + exfalso. apply (Hdecl (role user) Hrole). now apply Hiff.
    + auto.
  - intros Hchanged.
    destruct Hshape as [[user ->]|Hnone].
    + cbn [Attendance.authenticated Rbac.authUser Rbac.auth_error Rbac.auth_user truthyOpt]
        in Hchanged.
      exists user. split; [reflexivity|].
      destruct (Rbac.hasPermission user "attendance" "check_in") as [e|[|]] eqn:Hp.
      * cbn [fst] in Hchanged. tauto.
      * apply RbacFacts.check_in_employee_only.
        now apply RbacFacts.hasPermission_true.
      * cbn [fst] in Hchanged. tauto.
    + rewrite Hnone in Hchanged. cbn [fst] in Hchanged. tauto.
Qed.

(** The sample administrator is refused; nothing is inserted. *)
Lemma POST_check_in_employee_only_witness :
  let env := Sample.world (Some "good") "u2" "admin" in
  let request := Sample.request "/api/attendance" [] in
  snd (Attendance.POST env request Sample.start)
  = inr (Json (ErrorBody (Some "Insufficient permissions")) 403) /\
  db (fst (Attendance.POST env request Sample.start)) = db Sample.start /\
  inserts (log (fst (Attendance.POST env request Sample.start)))
  = inserts (log Sample.start).
Proof.
  intros env request.
  refine (proj1 (proj2 (proj2 (POST_check_in_employee_only env request Sample.start)))
            (Rbac.selectUser Sample.bob) eq_refl _).
  left. reflexivity.
Defined.

(** C10 as stated fails: an employee who sends an empty userId parameter
    (different from their id) is not refused; the guard [userId && ...]
    treats the empty string as no parameter and the employee gets their own
    records with status 200. *)
Lemma GET_empty_userId_is_not_refused :
  ~ (forall (env : Env) (request : NextRequest) (s : Sys)
            (user : AuthenticatedUser) (other : string),
       snd (Rbac.authenticateRequest env request s)
       = inr (Rbac.mkAuth (Some user) None None) ->
       Rbac.hasPermission user "attendance" "view_own" = inr true ->
       Rbac.hasPermission user "attendance" "view_all" = inr false ->
       searchParams_get request "userId" = Some other ->
       other <> id user ->
       snd (Attendance.GET env request s)
       = inr (Json (ErrorBody (Some "Insufficient permissions")) 403)).
Proof.
  intros H.
  specialize (H (Sample.world (Some "good") "u1" "employee")
                (Sample.request "/api/attendance" [("userId", "")]) Sample.start
                (Rbac.selectUser Sample.alice) ""
                eq_refl eq_refl eq_refl eq_refl).
  assert ("" <> id (Rbac.selectUser Sample.alice)) as Hne by discriminate.
  specialize (H Hne). vm_compute in H. discriminate H.
Qed.

(** Why the amended statement asks for a non-empty caller id: the user
    condition is pushed under [if (effectiveUserId)], so a caller whose id is
    the empty string is served every row. *)
Example GET_empty_id_is_unfiltered :
  let env := Sample.world (Some "good") "" "employee" in
  let s := mkSys (mkDatabase [Sample.ghost; Sample.alice; Sample.bob] Sample.rows) [] in
  exists records,
    snd (Attendance.GET env (Sample.request "/api/attendance" []) s)
    = inr (Json (RecordsBody records) 200) /\
    map ar_id records = ["a3"; "a2"; "a1"].
Proof.
  eexists. split; vm_compute; reflexivity.
Qed.

(** C10, amended: for an authenticated user who may view their own
    attendance but not everyone's, GET /api/attendance with a non-empty
    userId parameter different from the caller's id answers
    { error: 'Insufficient permissions' } with status 403.  With no userId
    parameter, an empty one, or the caller's own id, and a caller whose id is
    not empty, the handler answers 500 when the query fails and otherwise 200
    with the records of the selected rows, each of which is a row of the
    attendance table (joined with its user) whose user_id is the caller's
    id. *)
Theorem GET_employee_scope
  (env : Env) (request : NextRequest) (s : Sys) (user : AuthenticatedUser) :
  snd (Rbac.authenticateRequest env request s)
  = inr (Rbac.mkAuth (Some user) None None) ->
  Rbac.hasPermission user "attendance" "view_own" = inr true ->
  Rbac.hasPermission user "attendance" "view_all" = inr false ->
  let userId := searchParams_get request "userId" in
  let result := snd (Attendance.GET env request s) in
  let rows :=
    Attendance.selectedRows env
      (Attendance.conditionsFor (Some (id user))
         (searchParams_get request "from") (searchParams_get request "to"))
      (db s) in
  (forall other, userId = Some other -> other <> "" -> other <> id user ->
   result = inr (Json (ErrorBody (Some "Insufficient permissions")) 403)) /\
  (userId = None \/ userId = Some "" \/ userId = Some (id user) ->
   id user <> "" ->
   (env_dbFault env SelectAttendance = true ->
    result = inr (Json (ErrorBody (Some "Internal server error")) 500)) /\
   (env_dbFault env SelectAttendance = false ->
    result = inr (Json (RecordsBody
                          (map (Attendance.toAttendanceRecord env)
                             (map Attendance.project rows)))
                       200)) /\
   Forall (fun j => In j (Attendance.leftJoin (db s)) /\
                    attendance_user_id (fst j) = id user) rows).
Proof.
  intros Hauth Hown Hall userId result rows.
  destruct (AttendanceFacts.authenticateRequest_shape env request s)
    as [s1 [auth [Hrun [Hdb [_ _]]]]].
  rewrite Hrun in Hauth. cbn [snd] in Hauth. injection Hauth as ->.
  pose proof (AttendanceFacts.GET_own_eval env request s s1 user Hrun Hown Hall) as Hres.
  fold userId in Hres. fold result in Hres. split.
  - intros other Hsome Hne Hdiff. rewrite Hres.
    assert (Rbac.present userId = Some other) as -> by (apply present_Some; auto).
    apply String.eqb_neq in Hdiff. rewrite Hdiff. reflexivity.
  - intros Hcase Hid.
    assert (result =
            match snd (Attendance.listAttendance env (Some (id user))
                         (searchParams_get request "from")
                         (searchParams_get request "to") s1) with
            | inl _ => inr Attendance.internalError
            | inr r => inr r
            end) as Hlist.
    { rewrite Hres. destruct Hcase as [->|[->| ->]]; [reflexivity|reflexivity|].
      assert (Rbac.present (Some (id user)) = Some (id user)) as ->
        by (apply present_Some; auto).
      rewrite String.eqb_refl. reflexivity. }
    rewrite AttendanceFacts.listAttendance_eval, Hdb in Hlist. fold rows in Hlist.
    rewrite Hlist. repeat split.
    + intros ->. reflexivity.
    + intros ->. reflexivity.
    + subst rows.
      destruct (AttendanceFacts.conditionsFor_own (id user)
                  (searchParams_get request "from") (searchParams_get request "to") Hid)
        as [rest ->].
      apply AttendanceFacts.selectedRows_scoped.
Qed.

(** The sample employee lists attendance with an empty userId parameter and
    receives only their own rows. *)
Lemma GET_employee_scope_witness :
  let env := Sample.world (Some "good") "u1" "employee" in
  let request := Sample.request "/api/attendance" [("userId", "")] in
  let rows := Attendance.selectedRows env [Attendance.UserIdEq "u1"] Sample.database in
  snd (Attendance.GET env request Sample.start)
  = inr (Json (RecordsBody (map (Attendance.toAttendanceRecord env)
                              (map Attendance.project rows))) 200) /\
  Forall (fun j => In j (Attendance.leftJoin Sample.database) /\
                   attendance_user_id (fst j) = "u1") rows.
Proof.
  intros env request rows.
  pose proof (proj2 (GET_employee_scope env request Sample.start
                       (Rbac.selectUser Sample.alice) eq_refl eq_refl eq_refl)) as H.
  cbv zeta in H.
  assert (id (Rbac.selectUser Sample.alice) <> "") as Hid by discriminate.
  specialize (H (or_intror (or_introl eq_refl)) Hid).
  destruct H as [_ [Hok Hall]].
  split; [exact (Hok eq_refl) | exact Hall].
Defined.

(** * Further properties *)

(** ** The permission table and the role guards *)

Module TableFacts.
Import Rbac.

(** [hasPermission] looks at the role only. *)
Lemma hasPermission_by_role (u : AuthenticatedUser) (r a : string) :
  hasPermission u r a = hasPermission (mkUser "" "" (role u) "" "") r a.
Proof. reflexivity. Qed.

(** A user some permission is granted to has one of the three declared
    roles. *)
Lemma granted_role (u : AuthenticatedUser) (r a : string) :
  hasPermission u r a = inr true ->
  role u = "admin" \/ role u = "hr" \/ role u = "employee".
Proof.
  intros H. apply RbacFacts.hasPermission_true in H.
  apply RbacFacts.declared_role in H. simpl in H. intuition.
Qed.

(** A role guard lets through exactly the roles it lists. *)
Lemma requireRole_passes (allowed : list string) (u : AuthenticatedUser) :
  requireRole allowed u = mkCheck None None <-> In (role u) allowed.
Proof.
  unfold requireRole.
  destruct (includes allowed (role u)) eqn:E; simpl.
  - apply includes_spec in E. tauto.
  - apply includes_false in E. split; [discriminate | contradiction].
Qed.

End TableFacts.

(** Solves a goal about [hasPermission] on a user whose role is known. *)
Ltac by_role u H :=
  rewrite (TableFacts.hasPermission_by_role u) in *; rewrite H in *;
  try discriminate; try reflexivity.

(** X1: every permission of the hr role is a permission of the admin role:
    whatever [hasPermission] grants to an hr user it grants to an admin. *)
Theorem hr_permissions_within_admin
  (hr admin : AuthenticatedUser) (resource0 action0 : string) :
  role hr = "hr" -> role admin = "admin" ->
  Rbac.hasPermission hr resource0 action0 = inr true ->
  Rbac.hasPermission admin resource0 action0 = inr true.
Proof.
  intros Hhr Hadmin H.
  apply RbacFacts.hasPermission_true in H. rewrite Hhr in H.
  rewrite (TableFacts.hasPermission_by_role admin), Hadmin.
  vm_compute in H.
  repeat (destruct H as [H|H]; [injection H as <- <-; reflexivity|]).
  destruct H.
Qed.

Lemma hr_permissions_within_admin_witness :
  Rbac.hasPermission (Rbac.selectUser Sample.bob) "leave" "approve" = inr true.
Proof.
  apply (hr_permissions_within_admin (Rbac.selectUser Demo.carol)
           (Rbac.selectUser Sample.bob)); reflexivity.
Defined.

(** X2: no role holds both 'view_all' and 'view_own' on a resource: for a
    user who is granted 'view_all' on it, [hasPermission] answers false for
    'view_own', and the other way round. *)
Theorem view_all_excludes_view_own (user : AuthenticatedUser) (resource0 : string) :
  (Rbac.hasPermission user resource0 "view_all" = inr true ->
   Rbac.hasPermission user resource0 "view_own" = inr false) /\
  (Rbac.hasPermission user resource0 "view_own" = inr true ->
   Rbac.hasPermission user resource0 "view_all" = inr false).
Proof.
  split; intros H.
  - pose proof (TableFacts.granted_role _ _ _ H) as Hr.
    apply RbacFacts.hasPermission_true in H.
    destruct Hr as [Hr|[Hr|Hr]]; rewrite Hr in H; vm_compute in H;
      repeat (destruct H as [H|H];
              [try discriminate H; injection H as <-; by_role user Hr|]);
      destruct H.
  - pose proof (TableFacts.granted_role _ _ _ H) as Hr.
    apply RbacFacts.hasPermission_true in H.
    destruct Hr as [Hr|[Hr|Hr]]; rewrite Hr in H; vm_compute in H;
      repeat (destruct H as [H|H];
              [try discriminate H; injection H as <-; by_role user Hr|]);
      destruct H.
Qed.

Lemma view_all_excludes_view_own_witness :
  Rbac.hasPermission (Rbac.selectUser Demo.carol) "payroll" "view_own" = inr false.
Proof.
  apply (proj1 (view_all_excludes_view_own (Rbac.selectUser Demo.carol) "payroll")).
  reflexivity.
Defined.

(** X3: the three exported role guards are nested.  [requireAdmin] lets
    exactly the admin role through, [requireHR] exactly hr and admin,
    [requireEmployee] exactly employee, hr and admin; so whoever passes
    [requireAdmin] passes [requireHR], and whoever passes [requireHR] passes
    [requireEmployee]. *)
Theorem role_guards_nested (user : AuthenticatedUser) :
  let passes (guard : AuthenticatedUser -> Rbac.CheckResult) :=
    guard user = Rbac.mkCheck None None in
  (passes Rbac.requireAdmin <-> role user = "admin") /\
  (passes Rbac.requireHR <-> role user = "hr" \/ role user = "admin") /\
  (passes Rbac.requireEmployee <->
   role user = "employee" \/ role user = "hr" \/ role user = "admin") /\
  (passes Rbac.requireAdmin -> passes Rbac.requireHR) /\
  (passes Rbac.requireHR -> passes Rbac.requireEmployee).
Proof.
  intros passes. subst passes. cbv beta.
  unfold Rbac.requireAdmin, Rbac.requireHR, Rbac.requireEmployee.
  rewrite !TableFacts.requireRole_passes. simpl. intuition.
Qed.

(** X4: the role guards and the permission table agree.  A user passes
    [requireHR] exactly when each of the view-all and approve helpers
    answers true, and passes [requireAdmin] exactly when the table grants
    ('attendance', 'edit'), the permission PUT asks for. *)
Theorem role_guards_agree_with_table (user : AuthenticatedUser) :
  let hr := Rbac.requireHR user = Rbac.mkCheck None None in
  (hr <-> Rbac.canViewAllAttendance user = inr true) /\
  (hr <-> Rbac.canApproveAttendance user = inr true) /\
  (hr <-> Rbac.canViewAllLeave user = inr true) /\
  (hr <-> Rbac.canApproveLeave user = inr true) /\
  (hr <-> Rbac.canViewAllPayroll user = inr true) /\
  (hr <-> Rbac.canViewAllEmployees user = inr true) /\
  (Rbac.requireAdmin user = Rbac.mkCheck None None <->
   Rbac.hasPermission user "attendance" "edit" = inr true).
Proof.
  intros hr. subst hr.
  unfold Rbac.requireAdmin, Rbac.requireHR.
  rewrite !TableFacts.requireRole_passes.
  assert (In (role user) ["hr"; "admin"] <-> role user = "hr" \/ role user = "admin")
    as -> by (simpl; intuition).
  assert (In (role user) ["admin"] <-> role user = "admin")
    as -> by (simpl; intuition).
  unfold Rbac.canViewAllAttendance, Rbac.canApproveAttendance, Rbac.canViewAllLeave,
    Rbac.canApproveLeave, Rbac.canViewAllPayroll, Rbac.canViewAllEmployees.
  repeat split;
    try (intros [Hr|Hr]; by_role user Hr);
    try (intros Hr; by_role user Hr);
    intros H; destruct (TableFacts.granted_role _ _ _ H) as [Hr|[Hr|Hr]];
    auto; by_role user Hr.
Qed.

Lemma role_guards_nested_witness :
  Rbac.requireHR (Rbac.selectUser Sample.bob) = Rbac.mkCheck None None.
Proof.
  apply (proj1 (proj2 (proj2 (proj2 (role_guards_nested (Rbac.selectUser Sample.bob)))))).
  reflexivity.
Defined.

Lemma role_guards_agree_with_table_witness :
  Rbac.canApproveLeave (Rbac.selectUser Demo.carol) = inr true.
Proof.
  apply (proj1 (proj2 (proj2 (proj2
           (role_guards_agree_with_table (Rbac.selectUser Demo.carol)))))).
  reflexivity.
Defined.

(** ** The route guard with a valid token *)

Module GuardMore.
Import Rbac Middleware.

(** The rule the guard finds for a path is a declared one, and the path is
    under its prefix. *)
Lemma protectedRoute_some (p route : string) :
  present (protectedRoute p) = Some route ->
  exists allowed,
    In (route, allowed) roleBasedRoutes /\ HasPrefix route p /\
    getProperty roleBasedRoutes route = Own allowed.
Proof.
  intros H. apply present_Some in H. destruct H as [H _].
  unfold protectedRoute in H. apply find_some in H. destruct H as [Hin Hs].
  apply startsWith_spec in Hs. simpl in Hin.
  repeat (destruct Hin as [<-|Hin];
          [eexists; split; [|split; [exact Hs | reflexivity]]; simpl; auto 10|]).
  destruct Hin.
Qed.

(** No rule is found exactly for the paths under no role-gated prefix. *)
Lemma protectedRoute_none (p : string) :
  present (protectedRoute p) = None -> ~ MatchesAny (keys roleBasedRoutes) p.
Proof.
  intros H [route [Hin Hpre]].
  assert (exists allowed, In (route, allowed) roleBasedRoutes) as [allowed Hin'].
  { unfold keys in Hin. apply in_map_iff in Hin.
    destruct Hin as [[r a] [<- Hin]]. now exists a. }
  destruct (GuardFacts.gated_route route allowed p Hin' Hpre) as [_ [Hsome _]].
  congruence.
Qed.

(** The answer of the guard to a valid token on a path that is not public. *)
Lemma valid_eval (env : Env) (request : NextRequest) (s : Sys)
  (token : string) (payload : TokenPayload) :
  ValidToken env token payload ->
  isPublic (req_pathname request) = false ->
  snd (middleware env request s) =
  match present (protectedRoute (req_pathname request)) with
  | None => inr Next
  | Some route =>
      match getProperty roleBasedRoutes route with
      | Undefined => inr Next
      | Inherited => inl (TypeError "requiredRoles.includes is not a function")
      | Own requiredRoles =>
          if negb (includes requiredRoles (payload_role payload))
          then inr (Redirect (dashboardUrl request) [])
          else inr Next
      end
  end.
Proof.
  intros [[cookie [Hc Hp]] Hv] Hpub.
  rewrite (GuardFacts.middleware_eval env request s Hpub), Hc, Hp, Hv. reflexivity.
Qed.

Lemma public_eval (env : Env) (request : NextRequest) (s : Sys) :
  isPublic (req_pathname request) = true ->
  snd (middleware env request s) = inr Next.
Proof.
  intros H. unfold middleware. rewrite H. reflexivity.
Qed.

End GuardMore.

(** X5: a valid token whose role is admin is never redirected: on every
    path the guard passes the request through. *)
Theorem middleware_admin_passes_everywhere
  (env : Env) (request : NextRequest) (s : Sys) (token : string) (payload : TokenPayload) :
  ValidToken env token payload ->
  payload_role payload = "admin" ->
  snd (Middleware.middleware env request s) = inr Next.
Proof.
  intros Hvalid Hrole.
  destruct (Middleware.isPublic (req_pathname request)) eqn:Hpub;
    [now apply GuardMore.public_eval|].
  rewrite (GuardMore.valid_eval env request s token payload Hvalid Hpub).
  destruct (Rbac.present (Middleware.protectedRoute (req_pathname request)))
    as [route|] eqn:Hroute; [|reflexivity].
  destruct (GuardMore.protectedRoute_some _ _ Hroute) as [allowed [Hin [_ ->]]].
  rewrite Hrole. simpl in Hin.
  repeat (destruct Hin as [Hin|Hin]; [injection Hin as <- <-; reflexivity|]).
  destruct Hin.
Qed.

Lemma middleware_admin_passes_everywhere_witness :
  snd (Middleware.middleware (Sample.world (Some "good") "u2" "admin")
         (Sample.request "/settings/roles" []) Sample.start) = inr Next.
Proof.
  apply (middleware_admin_passes_everywhere (Sample.world (Some "good") "u2" "admin")
           (Sample.request "/settings/roles" []) Sample.start
           "good" (mkPayload "u2" "admin")).
  - split; [exists (Some "good"); split; reflexivity | reflexivity].
  - reflexivity.
Defined.

(** X6: with a valid token the guard never sends the request to the login
    page and never sets a cookie: it answers [next()] or the redirect to
    /dashboard?error=insufficient_permissions, and on a path under none of
    the six role-gated prefixes it answers [next()] whatever the role in the
    token, a role unknown to the application included. *)
Theorem middleware_valid_token_outcomes
  (env : Env) (request : NextRequest) (s : Sys) (token : string) (payload : TokenPayload) :
  ValidToken env token payload ->
  let result := snd (Middleware.middleware env request s) in
  (result = inr Next \/
   result = inr (Redirect (mkURL (req_origin request) "/dashboard"
                             [("error", "insufficient_permissions")]) [])) /\
  (~ MatchesAny ["/employees"; "/reports"; "/settings"; "/api/employees";
                 "/api/reports"; "/api/users"] (req_pathname request) ->
   result = inr Next).
Proof.
  intros Hvalid result. subst result.
  destruct (Middleware.isPublic (req_pathname request)) eqn:Hpub;
    [rewrite GuardMore.public_eval by assumption; auto|].
  rewrite (GuardMore.valid_eval env request s token payload Hvalid Hpub).
  destruct (Rbac.present (Middleware.protectedRoute (req_pathname request)))
    as [route|] eqn:Hroute; [|auto].
  destruct (GuardMore.protectedRoute_some _ _ Hroute) as [allowed [Hin [Hpre ->]]].
  split.
  - destruct (negb (includes allowed (payload_role payload))); auto.
  - intros Hnone. exfalso. apply Hnone. exists route. split; [|assumption].
    change (In (fst (route, allowed)) (map fst Middleware.roleBasedRoutes)).
    now apply in_map.
Qed.

Lemma middleware_valid_token_outcomes_witness :
  snd (Middleware.middleware (Sample.world (Some "good") "u7" "intern")
         (Sample.request "/payroll/2024" []) Sample.start) = inr Next.
Proof.
  refine (proj2 (middleware_valid_token_outcomes (Sample.world (Some "good") "u7" "intern")
                   (Sample.request "/payroll/2024" []) Sample.start
                   "good" (mkPayload "u7" "intern") _) _).
  - split; [exists (Some "good"); split; reflexivity | reflexivity].
  - apply GuardMore.protectedRoute_none. reflexivity.
Defined.

(** X7: which pages the two other roles lose.  With a valid hr token the
    guard redirects to the dashboard exactly on the paths under /settings;
    with a valid employee token, exactly on the paths under one of the six
    role-gated prefixes. *)
Theorem middleware_redirected_paths
  (env : Env) (request : NextRequest) (s : Sys) (token : string) (payload : TokenPayload) :
  ValidToken env token payload ->
  let redirected :=
    snd (Middleware.middleware env request s)
    = inr (Redirect (mkURL (req_origin request) "/dashboard"
                       [("error", "insufficient_permissions")]) []) in
  (payload_role payload = "hr" ->
   (redirected <-> HasPrefix "/settings" (req_pathname request))) /\
  (payload_role payload = "employee" ->
   (redirected <->
    MatchesAny ["/employees"; "/reports"; "/settings"; "/api/employees";
                "/api/reports"; "/api/users"] (req_pathname request))).
Proof.
  intros Hvalid redirected. subst redirected.
  assert (forall route allowed,
            In (route, allowed) Middleware.roleBasedRoutes ->
            HasPrefix route (req_pathname request) ->
            snd (Middleware.middleware env request s) =
            if negb (includes allowed (payload_role payload))
            then inr (Redirect (Middleware.dashboardUrl request) [])
            else inr Next) as Hgated.
  { intros route allowed Hin Hpre.
    destruct (GuardFacts.gated_route route allowed _ Hin Hpre) as [Hpub [Hr Hown]].
    rewrite (GuardMore.valid_eval env request s token payload Hvalid Hpub), Hr, Hown.
    reflexivity. }
  assert (snd (Middleware.middleware env request s)
          = inr (Redirect (Middleware.dashboardUrl request) []) ->
          exists route allowed,
            In (route, allowed) Middleware.roleBasedRoutes /\
            HasPrefix route (req_pathname request) /\
            includes allowed (payload_role payload) = false) as Hback.
  { intros H.
    destruct (Middleware.isPublic (req_pathname request)) eqn:Hpub;
      [rewrite GuardMore.public_eval in H by assumption; discriminate|].
    rewrite (GuardMore.valid_eval env request s token payload Hvalid Hpub) in H.
    destruct (Rbac.present (Middleware.protectedRoute (req_pathname request)))
      as [route|] eqn:Hroute; [|discriminate].
    destruct (GuardMore.protectedRoute_some _ _ Hroute) as [allowed [Hin [Hpre Hown]]].
    rewrite Hown in H. exists route, allowed.
    destruct (includes allowed (payload_role payload)); [discriminate | auto]. }
  split; intros Hrole; rewrite Hrole in *; split.
  - intros H. destruct (Hback H) as [route [allowed [Hin [Hpre Hinc]]]].
    simpl in Hin.
    repeat (destruct Hin as [Hin|Hin];
            [injection Hin as <- <-; try discriminate Hinc; try exact Hpre|]).
    destruct Hin.
  - intros Hpre.
    rewrite (Hgated "/settings" ["admin"]); [reflexivity | simpl; auto 10 | assumption].
  - intros H. destruct (Hback H) as [route [allowed [Hin [Hpre _]]]].
    exists route. split; [|assumption].
    change (In (fst (route, allowed)) (map fst Middleware.roleBasedRoutes)).
    now apply in_map.
  - intros [route [Hin Hpre]].
    assert (exists allowed, In (route, allowed) Middleware.roleBasedRoutes /\
                            includes allowed "employee" = false)
      as [allowed [Hin' Hinc]].
    { simpl in Hin.
      repeat (destruct Hin as [<-|Hin];
              [eexists; split; [simpl; auto 10 | reflexivity]|]).
      destruct Hin. }
    rewrite (Hgated route allowed Hin' Hpre), Hinc. reflexivity.
Qed.

Lemma middleware_redirected_paths_witness :
  snd (Middleware.middleware (Sample.world (Some "good") "u3" "hr")
         (Sample.request "/settings" []) Sample.start)
  = inr (Redirect (mkURL "http://localhost:3000" "/dashboard"
                     [("error", "insufficient_permissions")]) []).
Proof.
  refine (proj2 (proj1 (middleware_redirected_paths (Sample.world (Some "good") "u3" "hr")
                          (Sample.request "/settings" []) Sample.start
                          "good" (mkPayload "u3" "hr") _) eq_refl) _).
  - split; [exists (Some "good"); split; reflexivity | reflexivity].
  - exists "". reflexivity.
Defined.

(** X8: the guard has no [try]: on a path that is not public, an exception
    of the cookie read, or of the token codec on the token found, leaves the
    guard as it is. *)
Theorem middleware_propagates_faults
  (env : Env) (request : NextRequest) (s : Sys) (e : Exn) :
  ~ MatchesAny Middleware.publicRoutes (req_pathname request) ->
  env_getAuthCookie env = inl e \/
  (exists token, TokenFound env token /\ env_verifyToken env token = inl e) ->
  snd (Middleware.middleware env request s) = inl e.
Proof.
  intros Hpub H. apply GuardFacts.isPublic_false in Hpub.
  rewrite (GuardFacts.middleware_eval env request s Hpub).
  destruct H as [->|[token [[cookie [-> ->]] ->]]]; reflexivity.
Qed.

Lemma middleware_propagates_faults_witness :
  let env :=
    mkEnv (inl (ExternalFault "cookies")) (fun _ => inr None)
      "production" (fun _ => false) String.leb (fun _ => "")
      (fun _ => InvalidDate) (fun _ _ => inl (ExternalFault "database")) in
  snd (Middleware.middleware env (Sample.request "/dashboard" []) Sample.start)
  = inl (ExternalFault "cookies").
Proof.
  intros env. apply middleware_propagates_faults.
  - apply GuardFacts.isPublic_false. reflexivity.
  - left. reflexivity.
Defined.

(** ** The attendance handlers, end to end *)

Module HandlerFacts.
Import Rbac Attendance AttendanceUpdate.

(** The four failures of [authenticateRequest]. *)
Lemma authenticateRequest_cases (env : Env) (request : NextRequest) (s : Sys) :
  exists s1 auth,
    authenticateRequest env request s = (s1, inr auth) /\
    db s1 = db s /\ inserts (log s1) = inserts (log s) /\
    ((exists user, auth = authUser user) \/
     (exists msg code,
        In (msg, code) [("No authentication token found", 401%Z);
                        ("Invalid token", 401%Z); ("User not found", 404%Z);
                        ("Authentication failed", 500%Z)] /\
        auth = authError msg code)).
Proof.
  pose proof (AuthFacts.authenticateRequest_eval env request s) as Hev.
  pose proof (AuthFacts.authenticateRequest_reads env request s) as [Hdb Hlog].
  destruct (authenticateRequest env request s) as [s1 r]. cbn [fst snd] in *.
  subst r. do 2 eexists. split; [reflexivity|]. split; [assumption|].
  split; [assumption|].
  destruct (env_getAuthCookie env) as [e|cookie];
    [right; do 2 eexists; split; [|reflexivity]; simpl; auto 6|].
  destruct (present cookie) as [token|];
    [|right; do 2 eexists; split; [|reflexivity]; simpl; auto 6].
  destruct (env_verifyToken env token) as [e|[payload|]];
    try (right; do 2 eexists; split; [|reflexivity]; simpl; auto 6; fail).
  destruct (env_dbFault env SelectUser);
    [right; do 2 eexists; split; [|reflexivity]; simpl; auto 6|].
  destruct (selectUserById (userId payload) (db s)) as [|user rest];
    [right; do 2 eexists; split; [|reflexivity]; simpl; auto 6|].
  left. now exists user.
Qed.

(** From the answer of [authenticateRequest] to the run that produced it. *)
Lemma authenticateRequest_run (env : Env) (request : NextRequest) (s : Sys)
  (auth : AuthResult) :
  snd (authenticateRequest env request s) = inr auth ->
  exists s1, authenticateRequest env request s = (s1, inr auth) /\
             db s1 = db s /\ inserts (log s1) = inserts (log s).
Proof.
  intros H.
  destruct (authenticateRequest_cases env request s) as [s1 [auth' [Hrun [Hdb [Hlog _]]]]].
  rewrite Hrun in H. cbn [snd] in H. injection H as ->. eauto.
Qed.

(** The listing step only reads. *)
Lemma listAttendance_reads (env : Env) (e from to : option string) (s : Sys) :
  db (fst (listAttendance env e from to s)) = db s /\
  inserts (log (fst (listAttendance env e from to s))) = inserts (log s).
Proof.
  unfold listAttendance. run.
  destruct (env_dbFault env SelectAttendance); run;
    (split; [reflexivity | rewrite inserts_app; unfold inserts; simpl; lia]).
Qed.

(** The listing step under the handler's [catch]: 200 with the selected
    records, or 500. *)
Lemma listed (env : Env) (e from to : option string) (s : Sys) :
  snd (caught (listAttendance env e from to s)) =
  (if env_dbFault env SelectAttendance then inr internalError
   else inr (Json (RecordsBody
                     (map (toAttendanceRecord env)
                        (map project
                           (selectedRows env (conditionsFor e from to) (db s)))))
                  200)) /\
  db (fst (caught (listAttendance env e from to s))) = db s /\
  inserts (log (fst (caught (listAttendance env e from to s)))) = inserts (log s).
Proof.
  pose proof (AttendanceFacts.listAttendance_eval env e from to s) as Hev.
  destruct (listAttendance_reads env e from to s) as [Hd Hl].
  unfold caught.
  destruct (listAttendance env e from to s) as [s2 [x|x]]; cbn [fst snd] in *.
  - destruct (env_dbFault env SelectAttendance); [auto | discriminate].
  - destruct (env_dbFault env SelectAttendance); [discriminate|].
    injection Hev as ->. auto.
Qed.

(** GET, once [authenticateRequest] has answered. *)
Lemma GET_eval (env : Env) (request : NextRequest) (s s1 : Sys) (auth : AuthResult) :
  authenticateRequest env request s = (s1, inr auth) ->
  let userId := searchParams_get request "userId" in
  let list e :=
    caught (listAttendance env e (searchParams_get request "from")
              (searchParams_get request "to") s1) in
  GET env request s =
  match authenticated auth with
  | None => (s1, inr (unauthenticated auth))
  | Some user =>
      match hasPermission user "attendance" "view_all" with
      | inl _ => (s1, inr internalError)
      | inr true => list userId
      | inr false =>
          match hasPermission user "attendance" "view_own" with
          | inl _ => (s1, inr internalError)
          | inr false => (s1, inr forbidden)
          | inr true =>
              match present userId with
              | Some other =>
                  if negb (other =? id user) then (s1, inr forbidden)
                  else list (Some (id user))
              | None => list (Some (id user))
              end
          end
      end
  end.
Proof.
  intros Hauth userId list. subst userId list. unfold GET, caught.
  unfold tryCatch, bind at 1. rewrite Hauth.
  destruct (authenticated auth) as [user|]; [|reflexivity].
  unfold canViewAllAttendance, canViewOwnAttendance.
  unfold bind, liftExc, ret.
  destruct (hasPermission user "attendance" "view_all") as [e|[|]]; [reflexivity| |].
  - destruct (listAttendance env _ _ _ s1) as [s2 [e|r]]; reflexivity.
  - destruct (hasPermission user "attendance" "view_own") as [e|[|]];
      [reflexivity| |reflexivity].
    destruct (present (searchParams_get request "userId")) as [other|].
    + destruct (negb (other =? id user)); [reflexivity|].
      destruct (listAttendance env _ _ _ s1) as [s2 [e|r]]; reflexivity.
    + destruct (listAttendance env _ _ _ s1) as [s2 [e|r]]; reflexivity.
Qed.

(** POST, once [authenticateRequest] has answered, down to the insert. *)
Lemma POST_full_eval (env : Env) (request : NextRequest) (s s1 : Sys)
  (auth : AuthResult) :
  authenticateRequest env request s = (s1, inr auth) ->
  POST env request s =
  match authenticated auth with
  | None => (s1, inr (unauthenticated auth))
  | Some user =>
      match hasPermission user "attendance" "check_in" with
      | inl _ => (s1, inr internalError)
      | inr false => (s1, inr forbidden)
      | inr true =>
          match req_json request with
          | inl _ | inr JUndefined | inr JNull => (s1, inr internalError)
          | inr body =>
              if negb (truthy (field body "date"))
              then (s1, inr (Json (ErrorBody (Some "Date is required")) 400))
              else
                match env_insertAttendance env (db s1)
                        {| new_user_id := id user;
                           new_date := field body "date";
                           new_check_in := dateOrNull env (field body "checkIn");
                           new_check_out := dateOrNull env (field body "checkOut");
                           new_status := "present";
                           new_notes := if truthy (field body "notes")
                                        then field body "notes" else JNull |} with
                | inl _ =>
                    (mkSys (db s1) (log s1 ++ [Query InsertAttendance]),
                     inr internalError)
                | inr (d', r) =>
                    (mkSys d' (log s1 ++ [Query InsertAttendance]),
                     inr (Json (ValueBody r) 201))
                end
          end
      end
  end.
Proof.
  intros Hauth.
  rewrite (AttendanceFacts.POST_eval env request s s1 _ Hauth).
  destruct (authenticated auth) as [user|]; [|reflexivity].
  destruct (hasPermission user "attendance" "check_in") as [e|[|]];
    [reflexivity| |reflexivity].
  unfold insertAttendance. run.
  destruct (req_json request) as [e|body]; [reflexivity|].
  destruct body; try reflexivity;
    (destruct (negb (truthy (field _ "date"))); [reflexivity|];
     run; destruct (env_insertAttendance env (db s1) _) as [e|[d' r]]; reflexivity).
Qed.

(** PUT, once [authenticateRequest] has answered. *)
Lemma PUT_eval (env : Env) (driver : UpdateDriver) (request : NextRequest)
  (s s1 : Sys) (auth : AuthResult) :
  authenticateRequest env request s = (s1, inr auth) ->
  PUT env driver request s =
  match authenticated auth with
  | None => (s1, inr (unauthenticated auth))
  | Some user =>
      match hasPermission user "attendance" "edit" with
      | inl _ => (s1, inr internalError)
      | inr false => (s1, inr forbidden)
      | inr true =>
          match req_json request with
          | inl _ | inr JUndefined | inr JNull => (s1, inr internalError)
          | inr body =>
              if negb (truthy (field body "id"))
              then (s1, inr (Json (ErrorBody (Some "ID is required")) 400))
              else
                match drv_update driver (db s1) (field body "id")
                        {| set_status := if truthy (field body "status")
                                         then field body "status" else JStr "present";
                           set_notes := if truthy (field body "notes")
                                        then field body "notes" else JNull;
                           set_updated_at := drv_now driver |} with
                | inl _ => (s1, inr internalError)
                | inr (d', rows) =>
                    (mkSys d' (log s1),
                     inr (if negb (truthy (hd JUndefined rows))
                          then Json (ErrorBody (Some "Attendance record not found")) 404
                          else Json (ValueBody (hd JUndefined rows)) 200))
                end
          end
      end
  end.
Proof.
  intros Hauth. unfold PUT.
  unfold tryCatch, bind at 1. rewrite Hauth.
  destruct (authenticated auth) as [user|]; [|reflexivity].
  unfold requirePermission.
  destruct (hasPermission user "attendance" "edit") as [e|[|]];
    [reflexivity| |reflexivity].
  unfold updateAttendance.
  cbn [negb]. run. change (truthyOpt (check_error emptyObject)) with false. run.
  destruct (req_json request) as [e|body]; [reflexivity|].
  destruct body; try reflexivity;
    (destruct (negb (truthy (field _ "id"))); [reflexivity|];
     run; destruct (drv_update driver (db s1) _ _) as [e|[d' [|r rest]]];
     try reflexivity;
     run; cbn [hd]; destruct (negb (truthy r)); reflexivity).
Qed.

End HandlerFacts.

(** X9: the three handlers relay a failure of [authenticateRequest] as it
    is: for each of its four failures they answer { error } with the status
    of the failure (401, 401, 404, 500), and leave the tables untouched. *)
Theorem handlers_relay_authentication_failure
  (env : Env) (driver : AttendanceUpdate.UpdateDriver)
  (request : NextRequest) (s : Sys) (msg : string) (code : Z) :
  In (msg, code) [("No authentication token found", 401%Z); ("Invalid token", 401%Z);
                  ("User not found", 404%Z); ("Authentication failed", 500%Z)] ->
  snd (Rbac.authenticateRequest env request s)
  = inr (Rbac.mkAuth None (Some msg) (Some code)) ->
  let answer : Exc NextResponse := inr (Json (ErrorBody (Some msg)) code) in
  (snd (Attendance.GET env request s) = answer /\
   snd (Attendance.POST env request s) = answer /\
   snd (AttendanceUpdate.PUT env driver request s) = answer) /\
  (db (fst (Attendance.GET env request s)) = db s /\
   db (fst (Attendance.POST env request s)) = db s /\
   db (fst (AttendanceUpdate.PUT env driver request s)) = db s).
Proof.
  intros Hin Hauth answer. subst answer.
  destruct (HandlerFacts.authenticateRequest_run env request s _ Hauth)
    as [s1 [Hrun [Hdb _]]].
  rewrite (HandlerFacts.GET_eval env request s s1 _ Hrun),
    (HandlerFacts.POST_full_eval env request s s1 _ Hrun),
    (HandlerFacts.PUT_eval env driver request s s1 _ Hrun).
  cbv zeta. simpl in Hin.
  repeat (destruct Hin as [Hin|Hin]; [injection Hin as <- <-; cbn; auto 10|]).
  destruct Hin.
Qed.

Lemma handlers_relay_authentication_failure_witness :
  snd (Attendance.POST (Sample.world None "u1" "employee")
         (Sample.request "/api/attendance" []) Sample.start)
  = inr (Json (ErrorBody (Some "No authentication token found")) 401).
Proof.
  refine (proj1 (proj2 (proj1
            (handlers_relay_authentication_failure (Sample.world None "u1" "employee")
               Demo.updateDriver (Sample.request "/api/attendance" []) Sample.start
               "No authentication token found" 401 _ eq_refl)))).
  simpl. auto.
Defined.

(** X10: the handlers never throw and never redirect: whatever the request
    and the state of the world, GET answers JSON with status 200, 401, 403,
    404 or 500, POST with 201, 400, 401, 403, 404 or 500, PUT with 200, 400,
    401, 403, 404 or 500; and GET changes no table and issues no insert. *)
Theorem handlers_always_answer
  (env : Env) (driver : AttendanceUpdate.UpdateDriver)
  (request : NextRequest) (s : Sys) :
  (exists body status,
     snd (Attendance.GET env request s) = inr (Json body status) /\
     In status [200; 401; 403; 404; 500]%Z) /\
  (exists body status,
     snd (Attendance.POST env request s) = inr (Json body status) /\
     In status [201; 400; 401; 403; 404; 500]%Z) /\
  (exists body status,
     snd (AttendanceUpdate.PUT env driver request s) = inr (Json body status) /\
     In status [200; 400; 401; 403; 404; 500]%Z) /\
  db (fst (Attendance.GET env request s)) = db s /\
  inserts (log (fst (Attendance.GET env request s))) = inserts (log s).
Proof.
  destruct (HandlerFacts.authenticateRequest_cases env request s)
    as [s1 [auth [Hrun [Hdb [Hlog Hcases]]]]].
  rewrite (HandlerFacts.GET_eval env request s s1 _ Hrun),
    (HandlerFacts.POST_full_eval env request s s1 _ Hrun),
    (HandlerFacts.PUT_eval env driver request s s1 _ Hrun).
  cbv zeta.
  assert (forall e,
            let r := caught (Attendance.listAttendance env e
                               (searchParams_get request "from")
                               (searchParams_get request "to") s1) in
            (exists body status,
               snd r = inr (Json body status) /\
               In status [200; 401; 403; 404; 500]%Z) /\
            db (fst r) = db s /\ inserts (log (fst r)) = inserts (log s)) as Hlist.
  { intros e r.
    destruct (HandlerFacts.listed env e (searchParams_get request "from")
                (searchParams_get request "to") s1) as [Hev [Hd Hl]].
    fold r in Hev, Hd, Hl. rewrite Hev.
    split; [|split; congruence].
    destruct (env_dbFault env SelectAttendance);
      do 2 eexists; (split; [reflexivity | simpl; auto 10]). }
  destruct Hcases as [[user ->]|[msg [code [Hin ->]]]].
  - cbn [Attendance.authenticated Rbac.authUser Rbac.auth_error Rbac.auth_user truthyOpt].
    repeat apply conj.
    + destruct (Rbac.hasPermission user "attendance" "view_all") as [e|[|]];
        [do 2 eexists; split; [reflexivity | simpl; auto 10]
        |apply Hlist|].
      destruct (Rbac.hasPermission user "attendance" "view_own") as [e|[|]];
        [do 2 eexists; split; [reflexivity | simpl; auto 10]
        |
        |do 2 eexists; split; [reflexivity | simpl; auto 10]].
      destruct (Rbac.present (searchParams_get request "userId")) as [other|];
        [|apply Hlist].
      destruct (negb (other =? id user));
        [do 2 eexists; split; [reflexivity | simpl; auto 10] | apply Hlist].
    + destruct (Rbac.hasPermission user "attendance" "check_in") as [e|[|]];
        try (do 2 eexists; split; [reflexivity | simpl; auto 10]; fail).
      destruct (req_json request) as [e|body];
        [do 2 eexists; split; [reflexivity | simpl; auto 10]|].
      destruct body;
        try (do 2 eexists; split; [reflexivity | simpl; auto 10]; fail);
        (destruct (negb (truthy (Js.field _ "date")));
         [do 2 eexists; split; [reflexivity | simpl; auto 10]|];
         destruct (env_insertAttendance env (db s1) _) as [e|[d' r]];
         do 2 eexists; (split; [reflexivity | simpl; auto 10])).
    + destruct (Rbac.hasPermission user "attendance" "edit") as [e|[|]];
        try (do 2 eexists; split; [reflexivity | simpl; auto 10]; fail).
      destruct (req_json request) as [e|body];
        [do 2 eexists; split; [reflexivity | simpl; auto 10]|].
      destruct body;
        try (do 2 eexists; split; [reflexivity | simpl; auto 10]; fail);
        (destruct (negb (truthy (Js.field _ "id")));
         [do 2 eexists; split; [reflexivity | simpl; auto 10]|];
         destruct (AttendanceUpdate.drv_update driver (db s1) _ _) as [e|[d' rows]];
         [do 2 eexists; split; [reflexivity | simpl; auto 10]|];
         cbn [snd]; destruct (negb (truthy (hd JUndefined rows)));
         do 2 eexists; (split; [reflexivity | simpl; auto 10])).
    + destruct (Rbac.hasPermission user "attendance" "view_all") as [e|[|]];
        [assumption | apply Hlist |].
      destruct (Rbac.hasPermission user "attendance" "view_own") as [e|[|]];
        [assumption | | assumption].
      destruct (Rbac.present (searchParams_get request "userId")) as [other|];
        [|apply Hlist].
      destruct (negb (other =? id user)); [assumption | apply Hlist].
    + destruct (Rbac.hasPermission user "attendance" "view_all") as [e|[|]];
        [assumption | apply Hlist |].
      destruct (Rbac.hasPermission user "attendance" "view_own") as [e|[|]];
        [assumption | | assumption].
      destruct (Rbac.present (searchParams_get request "userId")) as [other|];
        [|apply Hlist].
      destruct (negb (other =? id user)); [assumption | apply Hlist].
  - simpl in Hin.
    repeat (destruct Hin as [Hin|Hin];
            [injection Hin as <- <-; cbn;
             repeat apply conj; try assumption;
             do 2 eexists; (split; [reflexivity | simpl; auto 10])|]).
    destruct Hin.
Qed.

Lemma handlers_always_answer_witness :
  exists body status,
    snd (AttendanceUpdate.PUT (Sample.world (Some "good") "u2" "admin")
           Demo.updateDriver (Demo.requestWith (JObj [("id", JStr "a2")])) Sample.start)
    = inr (Json body status) /\
    In status [200; 400; 401; 403; 404; 500]%Z.
Proof.
  exact (proj1 (proj2 (proj2
           (handlers_always_answer (Sample.world (Some "good") "u2" "admin")
              Demo.updateDriver (Demo.requestWith (JObj [("id", JStr "a2")]))
              Sample.start)))).
Defined.

Module QueryFacts.
Import Rbac Attendance.

Lemma selectedRows_In (env : Env) (cs : list Condition) (d : Database) (j : Joined) :
  In j (selectedRows env cs d) <->
  In j (leftJoin d) /\ forallb (fun c => holds env c (fst j)) cs = true.
Proof.
  unfold selectedRows. rewrite AttendanceFacts.orderByDateDesc_In.
  destruct cs as [|c cs].
  - simpl. tauto.
  - cbn [applyWhere]. apply filter_In.
Qed.

End QueryFacts.

(** X11: a caller who may view all attendance (admin, hr) is never refused
    by GET: unless the query fails (500) the answer is 200 with the records
    of the selected rows.  With a non-empty userId parameter these are rows
    of that user only; with no userId (or an empty one) and no complete date
    range they are all the rows of the table. *)
Theorem GET_view_all
  (env : Env) (request : NextRequest) (s : Sys) (user : AuthenticatedUser) :
  snd (Rbac.authenticateRequest env request s)
  = inr (Rbac.mkAuth (Some user) None None) ->
  Rbac.hasPermission user "attendance" "view_all" = inr true ->
  let userId := searchParams_get request "userId" in
  let from := searchParams_get request "from" in
  let to := searchParams_get request "to" in
  let rows :=
    Attendance.selectedRows env (Attendance.conditionsFor userId from to) (db s) in
  snd (Attendance.GET env request s) =
  (if env_dbFault env SelectAttendance
   then inr (Json (ErrorBody (Some "Internal server error")) 500)
   else inr (Json (RecordsBody (map (Attendance.toAttendanceRecord env)
                                  (map Attendance.project rows))) 200)) /\
  (forall uid, userId = Some uid -> uid <> "" ->
   Forall (fun j => attendance_user_id (fst j) = uid) rows) /\
  (userId = None \/ userId = Some "" ->
   from = None \/ from = Some "" \/ to = None \/ to = Some "" ->
   forall j, In j rows <-> In j (Attendance.leftJoin (db s))).
Proof.
  intros Hauth Hall userId from to rows.
  destruct (HandlerFacts.authenticateRequest_run env request s _ Hauth)
    as [s1 [Hrun [Hdb _]]].
  rewrite (HandlerFacts.GET_eval env request s s1 _ Hrun). cbv zeta.
  cbn [Attendance.authenticated Rbac.auth_error Rbac.auth_user truthyOpt].
  rewrite Hall.
  destruct (HandlerFacts.listed env userId from to s1) as [Hev _].
  fold userId from to. rewrite Hev, Hdb. fold rows.
  split; [reflexivity|]. split.
  - intros uid Hsome Hne. apply Forall_forall. intros j Hin.
    subst rows. unfold Attendance.conditionsFor in Hin.
    assert (Rbac.present userId = Some uid) as Hp by (apply present_Some; auto).
    rewrite Hp in Hin. apply QueryFacts.selectedRows_In in Hin.
    destruct Hin as [_ Hc]. cbn [app forallb Attendance.holds] in Hc.
    apply andb_true_iff in Hc. destruct Hc as [Hc _]. now apply String.eqb_eq.
  - intros Hu Hrange j. subst rows. rewrite QueryFacts.selectedRows_In.
    unfold Attendance.conditionsFor.
    assert (Rbac.present userId = None) as -> by (apply present_None; tauto).
    assert (match Rbac.present from, Rbac.present to with
            | Some f, Some t => [Attendance.DateGte f; Attendance.DateLte t]
            | _, _ => []
            end = []) as ->.
    { destruct Hrange as [H|[H|[H|H]]]; rewrite H;
        destruct (Rbac.present from); reflexivity. }
    simpl. tauto.
Qed.

Lemma GET_view_all_witness :
  Forall (fun j => attendance_user_id (fst j) = "u1")
    (Attendance.selectedRows (Sample.world (Some "good") "u2" "admin")
       (Attendance.conditionsFor (Some "u1") None None) Sample.database).
Proof.
  refine (proj1 (proj2 (GET_view_all (Sample.world (Some "good") "u2" "admin")
                          (Sample.request "/api/attendance" [("userId", "u1")])
                          Sample.start (Rbac.selectUser Sample.bob) eq_refl eq_refl))
            "u1" eq_refl _).
  discriminate.
Defined.

(** X12: the date range of GET needs both ends.  When [from] and [to] are
    both non-empty, the selected rows are exactly the rows selected without
    a range whose date lies between them; when either is missing or empty
    the other one is ignored. *)
Theorem date_range_needs_both_ends
  (env : Env) (effectiveUserId from to : option string) (d : Database) :
  let rows := Attendance.selectedRows env
                (Attendance.conditionsFor effectiveUserId from to) d in
  let unranged := Attendance.selectedRows env
                    (Attendance.conditionsFor effectiveUserId None None) d in
  (forall f t, from = Some f -> to = Some t -> f <> "" -> t <> "" ->
   forall j, In j rows <->
             In j unranged /\
             env_dateLeb env f (attendance_date (fst j)) = true /\
             env_dateLeb env (attendance_date (fst j)) t = true) /\
  (from = None \/ from = Some "" \/ to = None \/ to = Some "" -> rows = unranged).
Proof.
  intros rows unranged. subst rows unranged. split.
  - intros f t -> -> Hf Ht j.
    rewrite !QueryFacts.selectedRows_In. unfold Attendance.conditionsFor.
    assert (Rbac.present (Some f) = Some f) as -> by (apply present_Some; auto).
    assert (Rbac.present (Some t) = Some t) as -> by (apply present_Some; auto).
    cbn [Rbac.present]. rewrite !forallb_app. cbn [forallb Attendance.holds].
    rewrite !andb_true_iff. tauto.
  - intros H. unfold Attendance.conditionsFor.
    assert (match Rbac.present from, Rbac.present to with
            | Some f, Some t => [Attendance.DateGte f; Attendance.DateLte t]
            | _, _ => []
            end = []) as ->; [|reflexivity].
    destruct H as [H|[H|[H|H]]]; rewrite H; destruct (Rbac.present from); reflexivity.
Qed.

Lemma date_range_needs_both_ends_witness :
  Attendance.selectedRows (Sample.world None "u1" "employee")
    (Attendance.conditionsFor (Some "u1") (Some "2024-01-02") None) Sample.database
  = Attendance.selectedRows (Sample.world None "u1" "employee")
      (Attendance.conditionsFor (Some "u1") None None) Sample.database.
Proof.
  apply (proj2 (date_range_needs_both_ends (Sample.world None "u1" "employee")
                  (Some "u1") (Some "2024-01-02") None Sample.database)).
  right. right. left. reflexivity.
Defined.

(** X13: POST validates before it writes.  For a caller who may check in,
    a body that cannot be parsed or is [null] gives 500, and a body without
    a (truthy) [date] gives 400 'Date is required'; in both cases the tables
    are unchanged and no insert is issued. *)
Theorem POST_rejects_without_writing
  (env : Env) (request : NextRequest) (s : Sys) (user : AuthenticatedUser) :
  snd (Rbac.authenticateRequest env request s)
  = inr (Rbac.mkAuth (Some user) None None) ->
  Rbac.hasPermission user "attendance" "check_in" = inr true ->
  let result := snd (Attendance.POST env request s) in
  let after := fst (Attendance.POST env request s) in
  ((exists e, req_json request = inl e) \/ req_json request = inr JNull ->
   result = inr (Json (ErrorBody (Some "Internal server error")) 500) /\
   db after = db s /\ inserts (log after) = inserts (log s)) /\
  (forall body, req_json request = inr body -> body <> JNull -> body <> JUndefined ->
   truthy (Js.field body "date") = false ->
   result = inr (Json (ErrorBody (Some "Date is required")) 400) /\
   db after = db s /\ inserts (log after) = inserts (log s)).
Proof.
  intros Hauth Hperm result after. subst result after.
  destruct (HandlerFacts.authenticateRequest_run env request s _ Hauth)
    as [s1 [Hrun [Hdb Hlog]]].
  rewrite (HandlerFacts.POST_full_eval env request s s1 _ Hrun).
  cbn [Attendance.authenticated Rbac.auth_error Rbac.auth_user truthyOpt].
  rewrite Hperm. split.
  - intros [[e ->]| ->]; cbn [fst snd]; auto.
  - intros body -> Hn Hu Hdate.
    destruct body; try contradiction; rewrite Hdate; cbn [negb fst snd]; auto.
Qed.

Lemma POST_rejects_without_writing_witness :
  let env := Sample.world (Some "good") "u1" "employee" in
  let request := Demo.requestWith (JObj [("checkIn", JStr "2024-02-02T09:00:00Z")]) in
  snd (Attendance.POST env request Sample.start)
  = inr (Json (ErrorBody (Some "Date is required")) 400) /\
  db (fst (Attendance.POST env request Sample.start)) = db Sample.start /\
  inserts (log (fst (Attendance.POST env request Sample.start)))
  = inserts (log Sample.start).
Proof.
  intros env request.
  refine (proj2 (POST_rejects_without_writing env request Sample.start
                   (Rbac.selectUser Sample.alice) eq_refl eq_refl)
            (JObj [("checkIn", JStr "2024-02-02T09:00:00Z")]) eq_refl _ _ eq_refl);
    discriminate.
Defined.

(** X14: POST always writes under the caller's own id.  For a caller who
    may check in and a body with a date, the one insert issued carries
    [user_id] = the authenticated user's id and status 'present', whatever
    the body says (a [user_id] or [status] in the body is not read), falsy
    notes become [null] and falsy check-in and check-out times become
    [null]; the answer is 201 with the row the insert returns, or 500 with
    unchanged tables when the insert fails. *)
Theorem POST_inserts_for_the_caller
  (env : Env) (request : NextRequest) (s : Sys) (user : AuthenticatedUser)
  (body : JsVal) :
  snd (Rbac.authenticateRequest env request s)
  = inr (Rbac.mkAuth (Some user) None None) ->
  Rbac.hasPermission user "attendance" "check_in" = inr true ->
  req_json request = inr body -> body <> JNull -> body <> JUndefined ->
  truthy (Js.field body "date") = true ->
  let orNull (x : JsVal) := if truthy x then Some (env_newDate env x) else None in
  let values :=
    {| new_user_id := id user;
       new_date := Js.field body "date";
       new_check_in := orNull (Js.field body "checkIn");
       new_check_out := orNull (Js.field body "checkOut");
       new_status := "present";
       new_notes := if truthy (Js.field body "notes")
                    then Js.field body "notes" else JNull |} in
  let result := snd (Attendance.POST env request s) in
  let after := fst (Attendance.POST env request s) in
  (forall d' row, env_insertAttendance env (db s) values = inr (d', row) ->
   result = inr (Json (ValueBody row) 201) /\ db after = d') /\
  (forall e, env_insertAttendance env (db s) values = inl e ->
   result = inr (Json (ErrorBody (Some "Internal server error")) 500) /\
   db after = db s) /\
  inserts (log after) = S (inserts (log s)).
Proof.
  intros Hauth Hperm Hbody Hn Hu Hdate orNull values result after.
  subst result after.
  destruct (HandlerFacts.authenticateRequest_run env request s _ Hauth)
    as [s1 [Hrun [Hdb Hlog]]].
  rewrite (HandlerFacts.POST_full_eval env request s s1 _ Hrun).
  cbn [Attendance.authenticated Rbac.auth_error Rbac.auth_user truthyOpt].
  rewrite Hperm, Hbody.
  assert (inserts (log s1 ++ [Query InsertAttendance]) = S (inserts (log s))) as Hins
    by (rewrite inserts_app, Hlog; unfold inserts; simpl; lia).
  destruct body as [| | | | | |fields]; try contradiction;
    try (discriminate Hdate).
  rewrite Hdate. cbn [negb]. unfold Attendance.dateOrNull.
  subst values orNull. cbv beta zeta. rewrite Hdb.
  destruct (env_insertAttendance env (db s) _) as [e|[d' row]];
    cbn [fst snd db log].
  - split; [intros d' row H; discriminate H|].
    split; [intros e' _; auto | exact Hins].
  - split; [intros d'' row' H; injection H as <- <-; auto|].
    split; [intros e' H; discriminate H | exact Hins].
Qed.

Lemma POST_inserts_for_the_caller_witness :
  let env := Sample.world (Some "good") "u1" "employee" in
  let request :=
    Demo.requestWith (JObj [("date", JStr "2024-02-02"); ("user_id", JStr "u2")]) in
  snd (Attendance.POST env request Sample.start)
  = inr (Json (ValueBody (JObj [("id", JStr "new"); ("user_id", JStr "u1");
                                ("date", JStr "2024-02-02");
                                ("status", JStr "present")])) 201).
Proof.
  intros env request.
  refine (proj1 (proj1 (POST_inserts_for_the_caller env request Sample.start
                          (Rbac.selectUser Sample.alice)
                          (JObj [("date", JStr "2024-02-02"); ("user_id", JStr "u2")])
                          eq_refl eq_refl eq_refl _ _ eq_refl)
                   _ _ eq_refl));
    discriminate.
Defined.

(** X15: only the admin role can edit attendance.  PUT asks for
    ('attendance', 'edit'), which the table grants to admin alone: an
    authenticated hr or employee user is answered
    { error: 'Insufficient permissions' } with status 403 and the tables are
    unchanged, and whenever PUT changes the tables the authenticated user's
    role is admin. *)
Theorem PUT_admin_only
  (env : Env) (driver : AttendanceUpdate.UpdateDriver)
  (request : NextRequest) (s : Sys) :
  let auth := snd (Rbac.authenticateRequest env request s) in
  let after := fst (AttendanceUpdate.PUT env driver request s) in
  (forall user,
     auth = inr (Rbac.mkAuth (Some user) None None) ->
     role user = "hr" \/ role user = "employee" ->
     snd (AttendanceUpdate.PUT env driver request s)
     = inr (Json (ErrorBody (Some "Insufficient permissions")) 403) /\
     db after = db s) /\
  (db after <> db s ->
   exists user, auth = inr (Rbac.mkAuth (Some user) None None) /\ role user = "admin").
Proof.
  intros auth after. subst auth after.
  destruct (HandlerFacts.authenticateRequest_cases env request s)
    as [s1 [auth [Hrun [Hdb [_ Hcases]]]]].
  rewrite (HandlerFacts.PUT_eval env driver request s s1 _ Hrun), Hrun. cbn [snd].
  split.
  - intros user Heq Hrole. injection Heq as ->.
    cbn [Attendance.authenticated Rbac.auth_error Rbac.auth_user truthyOpt].
    destruct Hrole as [Hr|Hr]; by_role user Hr; auto.
  - intros Hchanged.
    destruct Hcases as [[user ->]|[msg [code [Hin ->]]]].
    + cbn [Attendance.authenticated Rbac.authUser Rbac.auth_error Rbac.auth_user
             truthyOpt] in Hchanged.
      exists user. split; [reflexivity|].
      destruct (Rbac.hasPermission user "attendance" "edit") as [e|[|]] eqn:Hp;
        [contradiction | | contradiction].
      destruct (TableFacts.granted_role _ _ _ Hp) as [Hr|[Hr|Hr]];
        [assumption | by_role user Hr | by_role user Hr].
    + exfalso. simpl in Hin.
      repeat (destruct Hin as [Hin|Hin];
              [injection Hin as <- <-; apply Hchanged; exact Hdb|]).
      destruct Hin.
Qed.

Lemma PUT_admin_only_witness :
  let env := Sample.world (Some "good") "u3" "hr" in
  let request := Demo.requestWith (JObj [("id", JStr "a1")]) in
  snd (AttendanceUpdate.PUT env Demo.updateDriver request Demo.start)
  = inr (Json (ErrorBody (Some "Insufficient permissions")) 403) /\
  db (fst (AttendanceUpdate.PUT env Demo.updateDriver request Demo.start))
  = db Demo.start.
Proof.
  intros env request.
  refine (proj1 (PUT_admin_only env Demo.updateDriver request Demo.start)
            (Rbac.selectUser Demo.carol) eq_refl _).
  left. reflexivity.
Defined.

(** X16: PUT by a caller who may edit.  Without a (truthy) [id] in the body
    the answer is 400 'ID is required' and nothing is updated.  With one,
    the update is issued for that id with [status] defaulting to 'present'
    and [notes] to [null] when the body leaves them out (or gives a falsy
    value): the answer is 404 'Attendance record not found' when no row comes
    back, 200 with the first row otherwise, and 500 with unchanged tables
    when the update fails. *)
Theorem PUT_outcomes
  (env : Env) (driver : AttendanceUpdate.UpdateDriver)
  (request : NextRequest) (s : Sys) (user : AuthenticatedUser) (body : JsVal) :
  snd (Rbac.authenticateRequest env request s)
  = inr (Rbac.mkAuth (Some user) None None) ->
  Rbac.hasPermission user "attendance" "edit" = inr true ->
  req_json request = inr body -> body <> JNull -> body <> JUndefined ->
  let data :=
    {| AttendanceUpdate.set_status :=
         if truthy (Js.field body "status") then Js.field body "status"
         else JStr "present";
       AttendanceUpdate.set_notes :=
         if truthy (Js.field body "notes") then Js.field body "notes" else JNull;
       AttendanceUpdate.set_updated_at := AttendanceUpdate.drv_now driver |} in
  let update := AttendanceUpdate.drv_update driver (db s) (Js.field body "id") data in
  let result := snd (AttendanceUpdate.PUT env driver request s) in
  let after := fst (AttendanceUpdate.PUT env driver request s) in
  (truthy (Js.field body "id") = false ->
   result = inr (Json (ErrorBody (Some "ID is required")) 400) /\ db after = db s) /\
  (truthy (Js.field body "id") = true ->
   (forall d', update = inr (d', []) ->
    result = inr (Json (ErrorBody (Some "Attendance record not found")) 404) /\
    db after = d') /\
   (forall d' row rest, update = inr (d', row :: rest) -> truthy row = true ->
    result = inr (Json (ValueBody row) 200) /\ db after = d') /\
   (forall e, update = inl e ->
    result = inr (Json (ErrorBody (Some "Internal server error")) 500) /\
    db after = db s)).
Proof.
  intros Hauth Hperm Hbody Hn Hu data update result after.
  subst result after update data. cbv zeta.
  destruct (HandlerFacts.authenticateRequest_run env request s _ Hauth)
    as [s1 [Hrun [Hdb _]]].
  rewrite (HandlerFacts.PUT_eval env driver request s s1 _ Hrun).
  cbn [Attendance.authenticated Rbac.auth_error Rbac.auth_user truthyOpt].
  rewrite Hperm, Hbody, Hdb.
  split.
  - intros Hid.
    destruct body; try contradiction; rewrite Hid; cbn [negb fst snd]; auto.
  - intros Hid.
    destruct body as [| | | | | |fields]; try contradiction; try discriminate Hid.
    rewrite Hid. cbn [negb].
    split; [|split].
    + intros d' H. rewrite H. cbn. auto.
    + intros d' row rest H Hrow. rewrite H. cbn [fst snd hd db]. rewrite Hrow. auto.
    + intros e H. rewrite H. cbn. auto.
Qed.

Lemma PUT_outcomes_witness :
  let env := Sample.world (Some "good") "u2" "admin" in
  let request := Demo.requestWith (JObj [("id", JStr "a1"); ("notes", JStr "")]) in
  snd (AttendanceUpdate.PUT env Demo.updateDriver request Sample.start)
  = inr (Json (ValueBody (JObj [("id", JStr "a1"); ("status", JStr "present");
                                ("notes", JNull)])) 200).
Proof.
  intros env request.
  refine (proj1 (proj1 (proj2 (proj2
            (PUT_outcomes env Demo.updateDriver request Sample.start
               (Rbac.selectUser Sample.bob)
               (JObj [("id", JStr "a1"); ("notes", JStr "")])
               eq_refl eq_refl eq_refl _ _) eq_refl))
            _ _ _ eq_refl eq_refl));
    discriminate.
Defined.

(** ** The records GET answers with *)

(** X17: worked time and overtime in a record.  When check-in or check-out
    is missing both fields read '00:00'.  When both are there and check-out
    is not before check-in, with [m] the whole minutes between them,
    [workHours] is [m / 60] and [m mod 60] (two digits each, joined by ':'),
    and [extraHours] is '00:00' below nine hours of work and the worked
    time minus eight hours from nine hours on. *)
Theorem worked_time (env : Env) (record : AttendanceQueryRecord) :
  let answer := Attendance.toAttendanceRecord env record in
  (qr_checkIn record = None \/ qr_checkOut record = None ->
   ar_workHours answer = "00:00" /\ ar_extraHours answer = "00:00") /\
  (forall checkIn checkOut,
     qr_checkIn record = Some checkIn -> qr_checkOut record = Some checkOut ->
     (checkIn <= checkOut)%Z ->
     let m := ((checkOut - checkIn) / 60000)%Z in
     ar_workHours answer
     = Attendance.twoDigits (m / 60) ++ ":" ++ Attendance.twoDigits (m mod 60) /\
     ar_extraHours answer
     = if (m <? 540)%Z then "00:00"
       else Attendance.twoDigits (m / 60 - 8) ++ ":" ++ Attendance.twoDigits (m mod 60)).
Proof.
  intros answer. subst answer. unfold Attendance.toAttendanceRecord.
  cbn [ar_workHours ar_extraHours]. split.
  - intros [-> | ->]; [|destruct (qr_checkIn record)]; auto.
  - intros checkIn checkOut -> -> Hle.
    set (m := ((checkOut - checkIn) / 60000)%Z).
    assert (((checkOut - checkIn) / (1000 * 60 * 60))%Z = (m / 60)%Z) as Hh
      by (subst m; rewrite Z.div_div by lia; reflexivity).
    assert ((Z.rem (checkOut - checkIn) (1000 * 60 * 60) / (1000 * 60))%Z
            = (m mod 60)%Z) as Hm.
    { subst m. rewrite Z.rem_mod_nonneg by lia.
      change (1000 * 60 * 60)%Z with (60000 * 60)%Z.
      change (1000 * 60)%Z with 60000%Z.
      rewrite Z.rem_mul_r by lia.
      rewrite Z.mul_comm, Z.div_add by lia.
      rewrite Z.div_small by (apply Z.mod_pos_bound; lia). reflexivity. }
    rewrite Hh, Hm.
    assert ((8 <? m / 60)%Z = negb (m <? 540)%Z) as ->.
    { destruct (Z.ltb_spec 8 (m / 60)); destruct (Z.ltb_spec m 540); try reflexivity;
        exfalso; pose proof (Z.div_le_mono m 539 60) as H1;
        pose proof (Z.div_le_mono 540 m 60) as H2;
        change (539 / 60)%Z with 8%Z in H1; change (540 / 60)%Z with 9%Z in H2; lia. }
    destruct (m <? 540)%Z; cbn [negb fst snd]; auto.
Qed.

Lemma worked_time_witness :
  let answer :=
    Attendance.toAttendanceRecord (Sample.world None "u1" "employee")
      (mkQueryRecord "a1" "2024-01-01" (Some 0%Z) (Some 32340000%Z) "present"
         None None None None) in
  ar_workHours answer = "08:59" /\ ar_extraHours answer = "00:00".
Proof.
  intros answer.
  exact (proj2 (worked_time (Sample.world None "u1" "employee")
                  (mkQueryRecord "a1" "2024-01-01" (Some 0%Z) (Some 32340000%Z)
                     "present" None None None None))
           0%Z 32340000%Z eq_refl eq_refl ltac:(lia)).
Defined.

(** ** The navigation menu against the route guard *)

(** X18: the menu and the guard agree for the three roles of the
    application.  For a user whose role is employee, hr or admin and whose
    valid token carries that role, a navigation item is shown exactly when
    the guard lets a request to the item's address through. *)
Theorem menu_matches_guard
  (env : Env) (request : NextRequest) (s : Sys) (token : string)
  (payload : TokenPayload) (user : AuthenticatedUser) (item : Nav.NavItem) :
  ValidToken env token payload ->
  role user = payload_role payload ->
  In (role user) ["employee"; "hr"; "admin"] ->
  In item Nav.navigationItems ->
  req_pathname request = Nav.href item ->
  (In item (Nav.filteredNavItems (Some user)) <->
   snd (Middleware.middleware env request s) = inr Next).
Proof.
  intros Hvalid Hsame Hrole Hitem Hpath.
  unfold Nav.filteredNavItems. rewrite filter_In.
  assert (Middleware.isPublic (req_pathname request) = false) as Hpub.
  { rewrite Hpath. simpl in Hitem.
    repeat (destruct Hitem as [<-|Hitem]; [reflexivity|]). destruct Hitem. }
  rewrite (GuardMore.valid_eval env request s token payload Hvalid Hpub).
  rewrite Hpath, <- Hsame. unfold Nav.visible.
  simpl in Hrole. simpl in Hitem.
  destruct Hrole as [Hr|[Hr|[Hr|[]]]]; rewrite <- Hr;
    repeat (destruct Hitem as [<-|Hitem];
            [vm_compute; split;
             [intros [_ H]; first [reflexivity | discriminate H]
             |intros H; first [discriminate H | split; [auto 10 | reflexivity]]]|]);
    destruct Hitem.
Qed.

Lemma menu_matches_guard_witness :
  In (Nav.mkNavItem "Reports" "/reports" (Some ["hr"; "admin"]))
     (Nav.filteredNavItems (Some (Rbac.selectUser Demo.carol))).
Proof.
  apply (menu_matches_guard (Sample.world (Some "good") "u3" "hr")
           (Sample.request "/reports" []) Demo.start "good" (mkPayload "u3" "hr")
           (Rbac.selectUser Demo.carol)
           (Nav.mkNavItem "Reports" "/reports" (Some ["hr"; "admin"]))).
  - split; [exists (Some "good"); split; reflexivity | reflexivity].
  - reflexivity.
  - simpl. auto.
  - simpl. auto 10.
  - reflexivity.
  - reflexivity.
Defined.

(** X19: the menu grows with the role.  Every item shown to an employee is
    shown to an hr user, every item shown to an hr user is shown to an
    admin, and a visitor without a user record, or a user whose role is none
    of employee, hr and admin, is shown no item. *)
Theorem menu_grows_with_role (employee hr admin other : AuthenticatedUser) :
  role employee = "employee" -> role hr = "hr" -> role admin = "admin" ->
  ~ In (role other) ["employee"; "hr"; "admin"] ->
  incl (Nav.filteredNavItems (Some employee)) (Nav.filteredNavItems (Some hr)) /\
  incl (Nav.filteredNavItems (Some hr)) (Nav.filteredNavItems (Some admin)) /\
  Nav.filteredNavItems (Some other) = [] /\
  Nav.filteredNavItems None = [].
Proof.
  intros He Hh Ha Ho.
  assert (forall u r, role u = r ->
            Nav.filteredNavItems (Some u)
            = Nav.filteredNavItems (Some (mkUser "" "" r "" ""))) as Hby.
  { intros u r <-. reflexivity. }
  rewrite (Hby _ _ He), (Hby _ _ Hh), (Hby _ _ Ha).
  repeat split.
  - intros item H. vm_compute in H |- *. intuition.
  - intros item H. vm_compute in H |- *. intuition.
  - unfold Nav.filteredNavItems, Nav.navigationItems, Nav.visible.
    cbn [filter Nav.requiredRoles].
    assert (forall l, incl l ["employee"; "hr"; "admin"] ->
                      includes l (role other) = false) as Hnot.
    { intros l Hl. apply includes_false. intros Hin. apply Ho. now apply Hl. }
    rewrite !Hnot; [reflexivity| | |]; intros x Hx; simpl in *; intuition.
Qed.

Lemma menu_grows_with_role_witness :
  incl (Nav.filteredNavItems (Some (Rbac.selectUser Sample.alice)))
       (Nav.filteredNavItems (Some (Rbac.selectUser Demo.carol))).
Proof.
  refine (proj1 (menu_grows_with_role (Rbac.selectUser Sample.alice)
                   (Rbac.selectUser Demo.carol) (Rbac.selectUser Sample.bob)
                   (mkUser "u9" "eve@dayflow.test" "intern" "Eve" "Eke")
                   eq_refl eq_refl eq_refl _)).
  simpl. intuition discriminate.
Defined.

(** ** Notifications *)

Module NotificationFacts.
Import Notifications.

Lemma combine_seq_snd {A} (l : list A) (n : nat) :
  map snd (combine (seq n (length l)) l) = l.
Proof.
  revert n. induction l as [|a l IH]; intros n; simpl; [reflexivity|].
  now rewrite IH.
Qed.

(** Mapping with call numbers keeps what each element determines. *)
Lemma mapIndexed_project {A B C} (f : nat -> A -> B) (g : B -> C) (h : A -> C)
  (l : list A) :
  (forall k a, g (f k a) = h a) -> map g (mapIndexed f l) = map h l.
Proof.
  intros H. unfold mapIndexed.
  transitivity (map h (map snd (combine (seq 0 (length l)) l)));
    [|now rewrite combine_seq_snd].
  rewrite !map_map. apply map_ext. intros [k a]. apply H.
Qed.


Lemma mapIndexed_length {A B} (f : nat -> A -> B) (l : list A) :
  length (mapIndexed f l) = length l.
Proof.
  rewrite <- (length_map (fun _ => tt) (mapIndexed f l)).
  rewrite (mapIndexed_project f (fun _ => tt) (fun _ => tt)) by reflexivity.
  apply length_map.
Qed.

(** The outcome of notifying the HR users. *)
Lemma notifyHr_eval (drv : Driver) (make : nat -> string -> Notification) (st : Store) :
  notifyHr drv make st =
  if selectFails drv then (st, inl (ExternalFault "database"))
  else match selectHrUsers st with
       | [] => (st, inr tt)
       | _ :: _ =>
           if insertFails drv then (st, inl (ExternalFault "database"))
           else (mkStore (store_db st)
                   (notifications st ++ mapIndexed make (selectHrUsers st)),
                 inr tt)
       end.
Proof.
  unfold notifyHr, insertNotifications. rewrite mapIndexed_length.
  destruct (selectFails drv); [reflexivity|].
  destruct (selectHrUsers st); reflexivity.
Qed.

End NotificationFacts.



(** X21: without any HR user there is nothing to insert and no insert is
    attempted: [createLeaveNotification] and [createApprovalNotification]
    succeed and leave the store as it was, even with a driver whose inserts
    fail. *)
Theorem hr_notifications_without_hr
  (drv : Notifications.Driver) (st : Notifications.Store)
  (userId leaveId entityType action0 : string) (status : Notifications.LeaveStatus) :
  Notifications.selectFails drv = false ->
  (forall u, In u (users (Notifications.store_db st)) -> users_role u <> "hr") ->
  Notifications.createLeaveNotification drv userId leaveId status st = (st, inr tt) /\
  Notifications.createApprovalNotification drv userId entityType action0 st
  = (st, inr tt).
Proof.
  intros Hs Hnone.
  unfold Notifications.createLeaveNotification, Notifications.createApprovalNotification.
  rewrite !NotificationFacts.notifyHr_eval, Hs.
  assert (Notifications.selectHrUsers st = []) as ->; [|auto].
  unfold Notifications.selectHrUsers.
  destruct (filter (fun u => users_role u =? "hr")
              (users (Notifications.store_db st))) as [|u rest] eqn:E; [reflexivity|].
  assert (In u (filter (fun u => users_role u =? "hr")
                  (users (Notifications.store_db st)))) as Hin by (rewrite E; now left).
  apply filter_In in Hin. destruct Hin as [Hin Hr]. apply String.eqb_eq in Hr.
  now apply Hnone in Hin.
Qed.

Lemma hr_notifications_without_hr_witness :
  Notifications.createLeaveNotification Demo.failingInserts "u1" "leave-7"
    Notifications.applied Demo.storeWithoutHr
  = (Demo.storeWithoutHr, inr tt).
Proof.
  refine (proj1 (hr_notifications_without_hr Demo.failingInserts Demo.storeWithoutHr
                   "u1" "leave-7" "Leave" "create" Notifications.applied eq_refl _)).
  intros u Hin. simpl in Hin.
  destruct Hin as [<-|[<-|[]]]; discriminate.
Defined.

(** X22: a failed notification writes nothing.  Whenever one of the three
    functions throws, the store is exactly as before. *)
Theorem notifications_fail_cleanly
  (drv : Notifications.Driver) (st : Notifications.Store)
  (userId leaveId payrollId entityType action0 : string)
  (status : Notifications.LeaveStatus) (e : Exn) :
  (snd (Notifications.createLeaveNotification drv userId leaveId status st) = inl e ->
   fst (Notifications.createLeaveNotification drv userId leaveId status st) = st) /\
  (snd (Notifications.createPayrollNotification drv userId payrollId st) = inl e ->
   fst (Notifications.createPayrollNotification drv userId payrollId st) = st) /\
  (snd (Notifications.createApprovalNotification drv userId entityType action0 st)
   = inl e ->
   fst (Notifications.createApprovalNotification drv userId entityType action0 st)
   = st).
Proof.
  unfold Notifications.createLeaveNotification, Notifications.createApprovalNotification,
    Notifications.createPayrollNotification, Notifications.insertNotifications.
  rewrite !NotificationFacts.notifyHr_eval.
  repeat split;
    destruct (Notifications.selectFails drv);
    destruct (Notifications.insertFails drv);
    try destruct (Notifications.selectHrUsers st);
    cbn [fst snd]; intros H; try reflexivity; discriminate H.
Qed.

Lemma notifications_fail_cleanly_witness :
  fst (Notifications.createPayrollNotification Demo.failingInserts "u1" "pay-3"
         Demo.store) = Demo.store.
Proof.
  apply (proj1 (proj2 (notifications_fail_cleanly Demo.failingInserts Demo.store
                         "u1" "leave-7" "pay-3" "Leave" "create"
                         Notifications.applied (ExternalFault "database")))).
  reflexivity.
Defined.

(** X23: [createPayrollNotification] notifies the employee it is given
    and nobody else.  When the insert does not fail, the inbox of [userId]
    gains exactly one unread 'Payroll Published' notification at its end,
    the inbox of every other user is unchanged, and the function returns the
    data of a success toast for that same user. *)
Theorem payroll_notification
  (drv : Notifications.Driver) (st : Notifications.Store) (userId payrollId : string) :
  Notifications.insertFails drv = false ->
  let after := fst (Notifications.createPayrollNotification drv userId payrollId st) in
  (exists n,
     inbox after userId = (inbox st userId ++ [n])%list /\
     Notifications.n_title n = "Payroll Published" /\
     Notifications.n_type n = Notifications.payroll_published /\
     Notifications.n_is_read n = false) /\
  (forall other, other <> userId -> inbox after other = inbox st other) /\
  (exists toast,
     snd (Notifications.createPayrollNotification drv userId payrollId st) = inr toast /\
     Notifications.toast_userId toast = userId /\
     Notifications.toast_type toast = "success").
Proof.
  intros Hi after. subst after.
  unfold Notifications.createPayrollNotification, Notifications.insertNotifications.
  rewrite Hi. cbn [fst snd]. unfold inbox. cbn [Notifications.notifications].
  repeat split.
  - eexists. rewrite filter_app. cbn [filter Notifications.n_user_id].
    rewrite String.eqb_refl. repeat split.
  - intros other Hne. rewrite filter_app. cbn [filter Notifications.n_user_id].
    apply not_eq_sym in Hne. apply String.eqb_neq in Hne. rewrite Hne.
    apply app_nil_r.
  - eexists. repeat split.
Qed.

Lemma payroll_notification_witness :
  inbox (fst (Notifications.createPayrollNotification Demo.driver "u1" "pay-3"
                Demo.store)) "u2"
  = inbox Demo.store "u2".
Proof.
  apply (proj1 (proj2 (payroll_notification Demo.driver Demo.store "u1" "pay-3"
                         eq_refl))).
  discriminate.
Defined.
